(** * bagins: bags, manifests and the save sequence

    A shallow embedding of the bag layer of the bagins package
    ([bag.go], and the single-manifest revision of the same file that
    carries [TrackedFiles] and [Orphans]),
    together with the properties of its integrity operations.

    Strings are Go strings restricted to bytes; a Go [error] is modelled by
    its message; a Go [map] is a [gmap]; calls that leave the package for the
    operating system or for parts of the package declared in other files are
    requests of a small free monad, answered by a handler. *)

From Stdlib Require Import Ascii String.
From stdpp Require Import base option list gmap strings.


(** A Go [error] value, identified with the text of [Error()]. *)
Abbreviation error := string.

(** ** The Go library functions used by the bag code *)

Module strings.

(** [strings.HasPrefix(s, prefix)]. *)
Definition HasPrefix (s prefix : string) : bool := String.prefix prefix s.

Definition lower_ascii (c : ascii) : ascii :=
  let n := nat_of_ascii c in
  if (65 <=? n)%nat && (n <=? 90)%nat then ascii_of_nat (n + 32) else c.

(** [strings.ToLower(s)] for [s] of ASCII bytes, where Go lowers the
    letters [A] to [Z] byte by byte. Text with other bytes Go lowers rune by
    rune; the properties that depend on the lowered name keep to ASCII. *)
Fixpoint ToLower (s : string) : string :=
  match s with
  | EmptyString => EmptyString
  | String c s' => String (lower_ascii c) (ToLower s')
  end.

(** [strings.Index(s, substr) > -1]. *)
Fixpoint Contains (s substr : string) : bool :=
  String.prefix substr s
  || match s with
     | EmptyString => false
     | String _ s' => Contains s' substr
     end.

(** [strings.Split(s, "/")]. *)
Fixpoint SplitSlash (s : string) : list string :=
  match s with
  | EmptyString => [EmptyString]
  | String c s' =>
      let r := SplitSlash s' in
      if Ascii.eqb c "/" then EmptyString :: r
      else match r with
           | x :: xs => String c x :: xs
           | [] => [String c EmptyString]
           end
  end.

(** [strings.Join(elems, "/")]. *)
Fixpoint JoinSlash (elems : list string) : string :=
  match elems with
  | [] => ""
  | [e] => e
  | e :: es => e +:+ "/" +:+ JoinSlash es
  end.

End strings.

(** [path/filepath] for slash-separated paths. [Clean], [Join] and [Dir]
    follow the library's lexical rules; [Rel] follows its documented
    behaviour: the result joined to the base is the target, and it fails
    when one path is rooted and the other is not, or when the base would
    have to be left through a [..] element. *)
Module filepath.

Definition rooted (p : string) : bool :=
  match p with
  | String c _ => Ascii.eqb c "/"
  | EmptyString => false
  end.

(** The element stack of [Clean]; [out] is kept in reverse. *)
Fixpoint clean_elems (isRooted : bool) (out : list string) (elems : list string)
  : list string :=
  match elems with
  | [] => rev out
  | e :: rest =>
      if bool_decide (e = "" ∨ e = ".") then clean_elems isRooted out rest
      else if bool_decide (e = "..") then
        match out with
        | top :: out' =>
            if bool_decide (top = "..")
            then clean_elems isRooted (e :: out) rest
            else clean_elems isRooted out' rest
        | [] =>
            if isRooted then clean_elems isRooted [] rest
            else clean_elems isRooted [e] rest
        end
      else clean_elems isRooted (e :: out) rest
  end.

Definition Clean (path : string) : string :=
  let body := strings.JoinSlash (clean_elems (rooted path) [] (strings.SplitSlash path)) in
  if rooted path then "/" +:+ body
  else if bool_decide (body = "") then "." else body.

(** [filepath.Join(a, b)]: empty elements are ignored, the rest is
    joined with a separator and cleaned. *)
Definition Join (a b : string) : string :=
  if bool_decide (a = "") then
    if bool_decide (b = "") then "" else Clean b
  else Clean (a +:+ "/" +:+ b).

(** [filepath.Dir(path)]: everything up to the last separator, cleaned. *)
Definition Dir (path : string) : string :=
  match rev (strings.SplitSlash path) with
  | _ :: (_ :: _) as front => Clean (strings.JoinSlash (rev front) +:+ "/")
  | _ => "."
  end.

Fixpoint strip_common (base targ : list string) : list string * list string :=
  match base, targ with
  | b :: base', t :: targ' =>
      if bool_decide (b = t) then strip_common base' targ' else (base, targ)
  | _, _ => (base, targ)
  end.

Definition elements (cleaned : string) : list string :=
  if bool_decide (cleaned = ".") then []
  else if bool_decide (cleaned = "/") then [""]
  else strings.SplitSlash cleaned.

Definition Rel (basepath targpath : string) : string + error :=
  let cant := "Rel: can't make " +:+ targpath +:+ " relative to " +:+ basepath in
  let base := Clean basepath in
  let targ := Clean targpath in
  if bool_decide (targ = base) then inl "."
  else if negb (Bool.eqb (rooted base) (rooted targ)) then inr cant
  else
    let '(brest, trest) := strip_common (elements base) (elements targ) in
    if bool_decide (head brest = Some "..") then inr cant
    else inl (Clean (strings.JoinSlash (((λ _, "..") <$> brest) ++ trest))).

End filepath.

(** ** Data model *)

Module TagField.
Record t := NewTagField { Label : string; Value : string }.
End TagField.

(** Modelled from the spec: the [TagFile] type is declared outside the
    files at hand. The spec describes it as a path plus free-form field
    data (key/value pairs, a simple field list). The bag code builds one
    with [NewTagFile] from the path joined to the bag root ([AddTagfile]) and
    uses [Name()] as the location on disk ([Save]), so [Name] is the path the
    tag file was built with; a new tag file has no fields and [AddField]
    appends one. *)
Module TagFile.
Record t := mk { Name : string; Data : list TagField.t }.

Definition AddField (f : TagField.t) (tf : t) : t :=
  {| Name := Name tf; Data := Data tf ++ [f] |}.
End TagFile.

(** Modelled from the spec: the manifest kinds compared by
    [GetManifests]. The constants [PayloadManifest] and [TagManifest] are
    declared with the manifest code; the spec has the two kinds Payload and
    Tag. *)
Inductive ManifestType := PayloadManifest | TagManifest.

Global Instance ManifestType_eq_dec : EqDecision ManifestType.
Proof. solve_decision. Defined.

(** Modelled from the spec: the [Manifest] declaration that [bag.go] is
    written against is in another file. It is used through [Name()], the
    file of the manifest itself, [Algorithm()], [Type()] and the exported map
    [Data]; the spec has a kind, an algorithm, a location and entries from
    file path to digest, where setting a path again overwrites its digest. *)
Module Manifest.
Record t := mk {
  Name : string;
  Algorithm : string;
  Type_ : ManifestType;
  Data : gmap string string
}.

(** [m.Data[key] = checksum]. *)
Definition setData (key checksum : string) (m : t) : t :=
  {| Name := Name m; Algorithm := Algorithm m; Type_ := Type_ m;
     Data := <[key := checksum]> (Data m) |}.
End Manifest.

(** Modelled from the spec: [Payload] owns the data directory.
    [Payload.Name()] is the directory the payload was opened on (the payload
    test compares the two). *)
Module Payload.
Record t := mk { Name : string }.
End Payload.

(** What [filepath.Walk] hands to its callback for one entry: the path,
    whether [info.IsDir()], and the error of reading the entry if any. *)
Record WalkEntry := { wPath : string; wIsDir : bool; wErr : option error }.

Record FileInfo := { IsDir : bool }.

(** ** Calls that leave the bag code

    Each constructor is one call to the operating system ([os], [log],
    [filepath.Walk]) or to a part of the package declared in another file;
    [resp] is the type of what the call returns. *)
Inductive call :=
| os_Mkdir (path : string)
| os_MkdirAll (path : string)
| os_Stat (path : string)
| os_Args0
| log_Println (msg : string) (errs : list error)
| filepath_Walk (root : string)
| NewManifest (pathToFile hashName : string)
| ReadManifest (pathToFile : string)
| NewPayload (path : string)
| NewTagFile (path : string)
| ReadTagFile (path : string)
| TagFile_Create (tf : TagFile.t)
| Manifest_Create (m : Manifest.t)
| bagutil_FileChecksum (path algorithm : string).

Definition resp (c : call) : Type :=
  match c with
  | os_Mkdir _ | os_MkdirAll _ => option error
  | os_Stat _ => (FileInfo + error)%type
  | os_Args0 => string
  | log_Println _ _ => unit
  | filepath_Walk _ => list WalkEntry
  | NewManifest _ _ => (Manifest.t + error)%type
  | ReadManifest _ => (Manifest.t * list error)%type
  | NewPayload _ | NewTagFile _ => option error
  | ReadTagFile _ => (option TagFile.t * list error)%type
  | TagFile_Create _ | Manifest_Create _ => option error
  | bagutil_FileChecksum _ _ => (string + error)%type
  end.

(** Programs: a result, or a call and the rest of the program for each
    answer. *)
Inductive prog (A : Type) : Type :=
| Ret (a : A)
| Vis (c : call) (k : resp c → prog A).
Arguments Ret {A} a.
Arguments Vis {A} c k.

Fixpoint bind {A B} (p : prog A) (f : A → prog B) : prog B :=
  match p with
  | Ret a => f a
  | Vis c k => Vis c (λ r, bind (k r) f)
  end.

Global Instance prog_ret : MRet prog := @Ret.
Global Instance prog_bind : MBind prog := λ A B f p, bind p f.

Definition perform (c : call) : prog (resp c) := Vis c Ret.

(** One call together with its answer. *)
Inductive event := Ev (c : call) (r : resp c).

Definition call_of (e : event) : call := let 'Ev c _ := e in c.

(** A handler answers every call, threading its own state [W]. *)
Definition handler (W : Type) : Type := ∀ c : call, W → resp c * W.

Record outcome (W A : Type) := Outcome {
  result : A;
  world : W;
  trace : list event
}.
Arguments Outcome {W A} result world trace.
Arguments result {W A} o.
Arguments world {W A} o.
Arguments trace {W A} o.

Fixpoint run {W A} (h : handler W) (p : prog A) (w : W) : outcome W A :=
  match p with
  | Ret a => Outcome a w []
  | Vis c k =>
      let o := run h (k (h c w).1) (h c w).2 in
      Outcome (result o) (world o) (Ev c (h c w).1 :: trace o)
  end.

(** The calls made, in order. *)
Definition calls {W A} (o : outcome W A) : list call := call_of <$> trace o.

(** A handler without state: a fixed answer for every call. *)
Definition script : Type := ∀ c : call, resp c.
Definition scripted (s : script) : handler unit := λ c w, (s c, w).
Definition play {A} (s : script) (p : prog A) : outcome unit A :=
  run (scripted s) p tt.

(** The message of an optional error, as appended to an error slice. *)
Definition errs_of (e : option error) : list error :=
  match e with Some err => [err] | None => [] end.

(** The error component of a Go result pair [(value, err)]. *)
Definition err_of {A} (r : A + error) : option error :=
  match r with inl _ => None | inr err => Some err end.

(** ** [bag.go] *)

Module Bag.

(** [Manifests] holds pointers; the list is the store they point into,
    and a [*Manifest] obtained from it is its index. [tagfiles] holds
    pointers as well, each stored under one key only, so that a change
    through the pointer is a change of the entry. *)
Record t := mk {
  pathToFile : string;
  payload : Payload.t;
  Manifests : list Manifest.t;
  tagfiles : gmap string TagFile.t
}.

Definition Path (b : t) : string := pathToFile b.

Definition with_Manifests (ms : list Manifest.t) (b : t) : t :=
  {| pathToFile := pathToFile b; payload := payload b;
     Manifests := ms; tagfiles := tagfiles b |}.

Definition with_tagfiles (tfs : gmap string TagFile.t) (b : t) : t :=
  {| pathToFile := pathToFile b; payload := payload b;
     Manifests := Manifests b; tagfiles := tfs |}.

(** The pointers (indexes from [i] on) to the manifests of one type. *)
Fixpoint manifests_of_type (manifestType : ManifestType) (i : nat)
    (ms : list Manifest.t) : list nat :=
  match ms with
  | [] => []
  | m :: ms' =>
      if decide (Manifest.Type_ m = manifestType)
      then i :: manifests_of_type manifestType (S i) ms'
      else manifests_of_type manifestType (S i) ms'
  end.

Definition GetManifests (manifestType : ManifestType) (b : t) : list nat :=
  manifests_of_type manifestType 0 (Manifests b).

(** [Bag.TagFile(name)]. *)
Definition TagFile (name : string) (b : t) : TagFile.t + error :=
  match tagfiles b !! name with
  | Some tf => inl tf
  | None => inr ("Unable to find tagfile " +:+ name)
  end.

Definition AddTagfile (name : string) (b : t) : prog (t * option error) :=
  let tagFilePath := filepath.Join (Path b) name in
  e ← perform (os_MkdirAll (filepath.Dir tagFilePath));
  match e with
  | Some err => Ret (b, Some err)
  | None =>
      e ← perform (NewTagFile tagFilePath);
      match e with
      | Some err => Ret (b, Some err)
      | None =>
          let tf := TagFile.mk tagFilePath [] in
          let b := with_tagfiles (<[name := tf]> (tagfiles b)) b in
          e ← perform (TagFile_Create tf);
          match e with
          | Some err => Ret (b, Some err)
          | None => Ret (b, None)
          end
      end
  end.

Definition createBagItFile (b : t) : prog (t * (TagFile.t + error)) :=
  '(b, e) ← AddTagfile "bagit.txt" b;
  match e with
  | Some err => Ret (b, inr err)
  | None =>
      match TagFile "bagit.txt" b with
      | inr err => Ret (b, inr err)
      | inl bagit =>
          let bagit := TagFile.AddField (TagField.NewTagField "BagIt-Version" "0.97") bagit in
          let bagit :=
            TagFile.AddField (TagField.NewTagField "Tag-File-Character-Encoding" "UTF-8") bagit in
          Ret (with_tagfiles (<["bagit.txt" := bagit]> (tagfiles b)) b, inl bagit)
      end
  end.

(** The inner loop of [Save]: the checksums of one tag file, one per tag
    manifest. [Some errors] is the [return errors] of the loop. *)
Fixpoint Save_checksums (tf : TagFile.t) (tagManifests : list nat)
    (ms : list Manifest.t) : prog (list Manifest.t * option (list error)) :=
  match tagManifests with
  | [] => Ret (ms, None)
  | i :: rest =>
      match ms !! i with
      | None => Save_checksums tf rest ms
      | Some manifest =>
          r ← perform (bagutil_FileChecksum (TagFile.Name tf) (Manifest.Algorithm manifest));
          match r with
          | inr err =>
              let errors :=
                [ "Error calculating " +:+ Manifest.Algorithm manifest
                  +:+ " checksum for file " +:+ TagFile.Name tf +:+ ": " +:+ err ] in
              Ret (ms, Some errors)
          | inl checksum =>
              Save_checksums tf rest
                (alter (Manifest.setData (TagFile.Name tf) checksum) i ms)
          end
      end
  end.

(** The loop of [Save] over the tag files, in the order [tfs] in which
    [range b.tagfiles] yields them. The result carries the manifests, the
    errors collected so far and, after a [return errors], those errors. *)
Fixpoint Save_tagfiles (tagManifests : list nat) (tfs : list TagFile.t)
    (ms : list Manifest.t) (errs : list error)
    : prog (list Manifest.t * list error * option (list error)) :=
  match tfs with
  | [] => Ret (ms, errs, None)
  | tf :: rest =>
      e ← perform (os_MkdirAll (filepath.Dir (TagFile.Name tf)));
      let errs := errs ++ errs_of e in
      e ← perform (TagFile_Create tf);
      let errs := errs ++ errs_of e in
      '(ms, returned) ← Save_checksums tf tagManifests ms;
      match returned with
      | Some errors => Ret (ms, errs, Some errors)
      | None => Save_tagfiles tagManifests rest ms errs
      end
  end.

Fixpoint Save_manifests (ms : list Manifest.t) (errs : list error)
    : prog (list error) :=
  match ms with
  | [] => Ret errs
  | manifest :: rest =>
      e ← perform (Manifest_Create manifest);
      Save_manifests rest (errs ++ errs_of e)
  end.

(** [Bag.Save()]. Go leaves the order of [range] over a map open: [tfs]
    is the order of this run. The bag comes back with the manifests as
    the loop left them. *)
Definition Save (tfs : list TagFile.t) (b : t) : prog (t * list error) :=
  let tagManifests := GetManifests TagManifest b in
  '(ms, errs, returned) ← Save_tagfiles tagManifests tfs (Manifests b) [];
  let b := with_Manifests ms b in
  match returned with
  | Some errors => Ret (b, errors)
  | None =>
      errs ← Save_manifests (Manifests b) errs;
      Ret (b, errs)
  end.


(** The manifests of [NewBag], one or two per hash name. *)
Fixpoint NewBag_manifests (bagPath : string) (hashNames : list string)
    (createTagManifests : bool) (ms : list Manifest.t)
    : prog (list Manifest.t + error) :=
  match hashNames with
  | [] => Ret (inl ms)
  | hashName :: rest =>
      let lcHashName := strings.ToLower hashName in
      r ← perform (NewManifest bagPath lcHashName);
      match r with
      | inr err => Ret (inr err)
      | inl manifest =>
          let ms := ms ++ [manifest] in
          if createTagManifests then
            let tagManifestName := "tagmanifest-" +:+ lcHashName +:+ ".txt" in
            let fullPath := filepath.Join bagPath tagManifestName in
            r ← perform (NewManifest fullPath lcHashName);
            match r with
            | inr err => Ret (inr err)
            | inl tagmanifest =>
                NewBag_manifests bagPath rest createTagManifests (ms ++ [tagmanifest])
            end
          else NewBag_manifests bagPath rest createTagManifests ms
      end
  end.

(** The message [NewBag] builds from the errors of [Save]; it is the
    format of [fmt.Errorf], and the text of the error when it holds no
    [%]. *)
Definition NewBag_message (errors : list error) : string :=
  foldl (λ message e, message +:+ ", " +:+ e) "" errors.

(** [NewBag(location, name, hashNames, createTagManifests)]. The bag has
    one tag file when [Save] runs, so [range] has one order. *)
Definition NewBag (location name : string) (hashNames : list string)
    (createTagManifests : bool) : prog (option t * option error) :=
  let bagPath := filepath.Join location name in
  e ← perform (os_Mkdir bagPath);
  match e with
  | Some err => Ret (None, Some err)
  | None =>
      r ← NewBag_manifests bagPath hashNames createTagManifests [];
      match r with
      | inr err => Ret (None, Some err)
      | inl ms =>
          let plPath := filepath.Join bagPath "data" in
          e ← perform (os_Mkdir plPath);
          match e with
          | Some err => Ret (None, Some err)
          | None =>
              e ← perform (NewPayload plPath);
              match e with
              | Some err => Ret (None, Some err)
              | None =>
                  let bag := mk bagPath (Payload.mk plPath) ms ∅ in
                  '(bag, r) ← createBagItFile bag;
                  let err := err_of r in
                  match r with
                  | inr e => Ret (None, Some e)
                  | inl tf =>
                      let bag := with_tagfiles (<["bagit.txt" := tf]> (tagfiles bag)) bag in
                      '(bag, errors) ← Save (map_to_list (tagfiles bag)).*2 bag;
                      if bool_decide (err ≠ None) && bool_decide (0 < length errors)
                      then Ret (None, Some (NewBag_message errors))
                      else Ret (Some bag, None)
                  end
              end
          end
      end
  end.

(** The callback of [ListFiles]: [files] is the slice the closure
    appends to; the second component is the error it returns. *)
Definition visit (b : t) (files : list string) (entry : WalkEntry)
    : list string * option error :=
  match wErr entry with
  | Some err => (files, Some err)
  | None =>
      let isPayload := strings.HasPrefix (wPath entry) (Payload.Name (payload b)) in
      if negb (wIsDir entry) || negb isPayload then
        match filepath.Rel (Path b) (wPath entry) with
        | inr err => (files, Some err)
        | inl fp =>
            (if bool_decide (fp ≠ ".") then files ++ [fp] else files, None)
        end
      else (files, None)
  end.

(** [filepath.Walk] calling [visit] entry by entry; the first error
    [visit] returns ends the walk and is the error of [Walk]. *)
Fixpoint walk (b : t) (entries : list WalkEntry) (files : list string)
    : list string * option error :=
  match entries with
  | [] => (files, None)
  | entry :: rest =>
      match visit b files entry with
      | (files, Some err) => (files, Some err)
      | (files, None) => walk b rest files
      end
  end.

(** [Bag.ListFiles()]; a nil slice is the empty list. *)
Definition ListFiles (b : t) : prog (list string * option error) :=
  entries ← perform (filepath_Walk (Path b));
  match walk b entries [] with
  | (_, Some err) => Ret ([], Some err)
  | (files, None) => Ret (files, None)
  end.

(** The loop of [findManifests] over the listed files; [Some errors] is
    its [return errors]. *)
Fixpoint findManifests_files (b : t) (bagFiles : list string)
    (ms : list Manifest.t) : prog (list Manifest.t * option (list error)) :=
  match bagFiles with
  | [] => Ret (ms, None)
  | fName :: rest =>
      let filePath := filepath.Join (pathToFile b) fName in
      let payloadManifestPrefix := filepath.Join (pathToFile b) "manifest-" in
      let tagManifestPrefix := filepath.Join (pathToFile b) "tagmanifest-" in
      if strings.HasPrefix filePath payloadManifestPrefix
         || strings.HasPrefix filePath tagManifestPrefix
      then
        '(manifest, errors) ← perform (ReadManifest filePath);
        if bool_decide (0 < length errors) then Ret (ms, Some errors)
        else findManifests_files b rest (ms ++ [manifest])
      else findManifests_files b rest ms
  end.

(** [Bag.findManifests()]; [None] is the nil slice it returns at the
    end. *)
Definition findManifests (b : t) : prog (t * option (list error)) :=
  if bool_decide (length (Manifests b) = 0) then
    '(bagFiles, _) ← ListFiles b;
    '(ms, errors) ← findManifests_files b bagFiles (Manifests b);
    Ret (with_Manifests ms b, errors)
  else Ret (b, None).

(** The second loop of [ReadBag]: every manifest found is parsed again
    from its path under the bag. *)
Fixpoint ReadBag_manifests (bagPath : string) (indexes : list nat)
    (ms : list Manifest.t) : prog (list Manifest.t * option error) :=
  match indexes with
  | [] => Ret (ms, None)
  | i :: rest =>
      match ms !! i with
      | None => ReadBag_manifests bagPath rest ms
      | Some manifest =>
          let manifestPath :=
            if bool_decide (filepath.Dir (Manifest.Name manifest) ≠ bagPath)
            then filepath.Join bagPath (Manifest.Name manifest)
            else Manifest.Name manifest in
          st ← perform (os_Stat manifestPath);
          match st with
          | inr err => Ret (ms, Some ("Can't find manifest: " +:+ err))
          | inl _ =>
              '(parsedManifest, errs) ← perform (ReadManifest manifestPath);
              if bool_decide (0 < length errs) then
                let errors := foldl (λ errors e, errors +:+ "; " +:+ e) "" errs in
                Ret (ms, Some ("Unable to parse manifest " +:+ manifestPath
                               +:+ ": " +:+ errors))
              else ReadBag_manifests bagPath rest (<[i := parsedManifest]> ms)
          end
      end
  end.

(** The last loop of [ReadBag], over the tag file names it was given. *)
Fixpoint ReadBag_tagfiles (bagPath : string) (names : list string)
    (tfs : gmap string TagFile.t) : prog (gmap string TagFile.t) :=
  match names with
  | [] => Ret tfs
  | tName :: rest =>
      '(tf, errs) ← perform (ReadTagFile (filepath.Join bagPath tName));
      _ ← (if bool_decide (length errs ≠ 0) then
             arg0 ← perform os_Args0;
             if strings.Contains arg0 "bagmaker"
             then perform (log_Println "While parsing tagfiles:" errs)
             else Ret tt
           else Ret tt);
      match tf with
      | Some tf => ReadBag_tagfiles bagPath rest (<[tName := tf]> tfs)
      | None => ReadBag_tagfiles bagPath rest tfs
      end
  end.

(** The message [ReadBag] builds from the errors of [findManifests]; it
    is the format of [fmt.Errorf], and the text of the error when it holds
    no [%]: [fmt] rewrites what follows a [%]. The properties that give the
    text of this error keep to messages without [%]. *)
Definition ReadBag_message (errors : list error) : string :=
  foldl (λ errorMessage e, errorMessage +:+ "; " +:+ e) "" errors.

(** [ReadBag(pathToFile, tagfiles)]. *)
Definition ReadBag (pathToFile : string) (tagfiles : list string)
    : prog (option t * option error) :=
  st ← perform (os_Stat pathToFile);
  match st with
  | inr err => Ret (None, Some err)
  | inl fi =>
      if negb (IsDir fi) then Ret (None, Some (pathToFile +:+ " is not a directory."))
      else
        let plPath := filepath.Join pathToFile "data" in
        e ← perform (NewPayload plPath);
        match e with
        | Some err => Ret (None, Some err)
        | None =>
            let bag := mk pathToFile (Payload.mk plPath) [] ∅ in
            '(bag, errors) ← findManifests bag;
            match errors with
            | Some errors => Ret (None, Some (ReadBag_message errors))
            | None =>
                if bool_decide (length (Manifests bag) = 0)
                then Ret (None, Some "Unable to parse a manifest")
                else
                  '(ms, e) ← ReadBag_manifests (Bag.pathToFile bag)
                               (seq 0 (length (Manifests bag))) (Manifests bag);
                  match e with
                  | Some err => Ret (None, Some err)
                  | None =>
                      let bag := with_Manifests ms bag in
                      tfs ← ReadBag_tagfiles (Bag.pathToFile bag) tagfiles (Bag.tagfiles bag);
                      Ret (Some (with_tagfiles tfs bag), None)
                  end
            end
        end
  end.

(** The loop of [ListTagFiles]: [names[i] = k] for the keys in the order
    [keys] of [range]; [None] is the panic of an index out of range. *)
Fixpoint ListTagFiles_fill (keys : list string) (i : nat) (names : list string)
    : option (list string) :=
  match keys with
  | [] => Some names
  | k :: rest =>
      if bool_decide (i < length names)
      then ListTagFiles_fill rest (S i) (<[i := k]> names)
      else None
  end.

(** [Bag.ListTagFiles()]; [keys] is the order in which [range b.tagfiles]
    yields the keys in this run. *)
Definition ListTagFiles (keys : list string) (b : t) : option (list string) :=
  ListTagFiles_fill keys 0 (replicate (size (tagfiles b)) "").

(** [Bag.BagInfo()]. *)
Definition BagInfo (b : t) : TagFile.t + error :=
  match TagFile "bag-info.txt" b with
  | inr err => inr err
  | inl tf => inl tf
  end.

(** The loop of [GetManifest], from the pointer [i] on. *)
Fixpoint first_manifest (manifestType : ManifestType) (algorithm : string) (i : nat)
    (ms : list Manifest.t) : option nat :=
  match ms with
  | [] => None
  | m :: ms' =>
      if bool_decide (Manifest.Type_ m = manifestType)
         && bool_decide (Manifest.Algorithm m = algorithm)
      then Some i
      else first_manifest manifestType algorithm (S i) ms'
  end.

(** [Bag.GetManifest(manifestType, algorithm)]; [None] is the nil
    pointer. *)
Definition GetManifest (manifestType : ManifestType) (algorithm : string) (b : t)
    : option nat :=
  first_manifest manifestType algorithm 0 (Manifests b).

End Bag.

(** The value component of a Go result pair [(value, err)] of strings:
    the empty string when there is an error. *)
Definition val_of (r : string + error) : string :=
  match r with inl v => v | inr _ => "" end.

(** ** The single-manifest revision of the bag

    The revision of the bag file in which a bag has one [Manifest] and
    [Close] instead of [Save]; it carries [TrackedFiles] and [Orphans]. *)

Module SingleManifestBag.

Record t := mk {
  pth : string;
  payload : Payload.t;
  Manifest : Manifest.t;
  tagfiles : gmap string TagFile.t
}.

Definition Path (b : t) : string := pth b.

Definition visit (b : t) (files : list string) (entry : WalkEntry)
    : list string * option error :=
  match wErr entry with
  | Some err => (files, Some err)
  | None =>
      let isPayload := strings.HasPrefix (wPath entry) (Payload.Name (payload b)) in
      if negb (wIsDir entry) || negb isPayload then
        match filepath.Rel (Path b) (wPath entry) with
        | inr err => (files, Some err)
        | inl fp =>
            (if bool_decide (fp ≠ ".") then files ++ [fp] else files, None)
        end
      else (files, None)
  end.

Fixpoint walk (b : t) (entries : list WalkEntry) (files : list string)
    : list string * option error :=
  match entries with
  | [] => (files, None)
  | entry :: rest =>
      match visit b files entry with
      | (files, Some err) => (files, Some err)
      | (files, None) => walk b rest files
      end
  end.

(** [Bag.ListFiles()], word for word the one of [bag.go]. *)
Definition ListFiles (b : t) : prog (list string * option error) :=
  entries ← perform (filepath_Walk (Path b));
  match walk b entries [] with
  | (_, Some err) => Ret ([], Some err)
  | (files, None) => Ret (files, None)
  end.

(** An order in which [range] may yield the keys of a map. *)
Definition range_keys {V} (m : gmap string V) (names : list string) : Prop :=
  names ≡ₚ (map_to_list m).*1.

(** [Bag.TrackedFiles()]; [names] is the order in which
    [range b.tagfiles] yields the keys in this run. *)
Definition TrackedFiles (names : list string) (b : t) : list string :=
  let files := names in
  let r := filepath.Rel (Path b) (Manifest.Name (Manifest b)) in
  let mPath := val_of r in
  let err := err_of r in
  if bool_decide (err ≠ None) then files ++ [mPath] else files.

(** [Bag.Orphans()]. *)
Definition Orphans (names : list string) (b : t) : prog (list string) :=
  let tracked := TrackedFiles names b in
  let fMap : gmap string bool := foldl (λ fMap fn, <[fn := true]> fMap) ∅ tracked in
  '(files, _) ← ListFiles b;
  Ret (filter (λ f, fMap !! f = None) files).

Definition with_Manifest (m : Manifest.t) (b : t) : t :=
  {| pth := pth b; payload := payload b; Manifest := m; tagfiles := tagfiles b |}.

(** [Bag.AddFile(src, dst)]. [added] is what
    [b.payload.Add(src, dst, b.Manifest.algo.New())] returned: the digest of
    the file copied under the payload directory, or an error. *)
Definition AddFile (added : string + error) (dst : string) (b : t) : t * option error :=
  match added with
  | inr err => (b, Some err)
  | inl fx =>
      (with_Manifest (Manifest.setData (filepath.Join "data" dst) fx (Manifest b)) b,
       err_of added)
  end.

(** [Bag.AddDir(src)]. [data] and [errs] are what
    [b.payload.AddAll(src, b.Manifest.algo.New())] returned, the map [data]
    in the order in which [range data] yields its keys in this run. *)
Definition AddDir (data : list (string * string)) (errs : list error) (b : t)
    : t * list error :=
  (with_Manifest
     (foldl (λ m kv, Manifest.setData (filepath.Join "data" kv.1) kv.2 m) (Manifest b) data)
     b,
   errs).

(** The loop of [Close] over the tag files, in the order [tfs] of
    [range b.tagfiles]. *)
Fixpoint Close_tagfiles (tfs : list TagFile.t) (errs : list error) : prog (list error) :=
  match tfs with
  | [] => Ret errs
  | tf :: rest =>
      e ← perform (os_MkdirAll (filepath.Dir (TagFile.Name tf)));
      let errs := errs ++ errs_of e in
      e ← perform (TagFile_Create tf);
      let errs := errs ++ errs_of e in
      Close_tagfiles rest errs
  end.

(** [Bag.Close()]. *)
Definition Close (tfs : list TagFile.t) (b : t) : prog (list error) :=
  e ← perform (Manifest_Create (Manifest b));
  Close_tagfiles tfs ([] ++ errs_of e).

(** The loop of [ConfirmFiles]. [IsNotExist] is [os.IsNotExist] on the
    errors of [os.Stat]; it is false of the nil error. *)
Fixpoint ConfirmFiles_files (IsNotExist : error → bool) (bagPath : string)
    (files : list string) (errs : list error) : prog (list error) :=
  match files with
  | [] => Ret errs
  | f :: rest =>
      st ← perform (os_Stat (filepath.Join bagPath f));
      match st with
      | inr err =>
          if IsNotExist err
          then ConfirmFiles_files IsNotExist bagPath rest (errs ++ ["Unable to find: " +:+ f])
          else ConfirmFiles_files IsNotExist bagPath rest errs
      | inl _ => ConfirmFiles_files IsNotExist bagPath rest errs
      end
  end.

(** [Bag.ConfirmFiles()]. *)
Definition ConfirmFiles (IsNotExist : error → bool) (names : list string) (b : t)
    : prog (list error) :=
  let files := TrackedFiles names b in
  ConfirmFiles_files IsNotExist (Path b) files [].

End SingleManifestBag.

(** ** Reference answers for the calls *)

(** Modelled from the spec: [NewManifest] is declared with the manifest
    code. A manifest is created empty; its file is [manifest-<algorithm>.txt]
    at the bag root for the payload kind and [tagmanifest-<algorithm>.txt]
    for the tag kind. [NewBag] passes the bag root for the first and the
    full path of the file for the second. *)
Definition reference_NewManifest (pathToFile hashName : string) : Manifest.t :=
  if strings.HasPrefix (default "" (last (strings.SplitSlash pathToFile))) "tagmanifest-"
  then Manifest.mk pathToFile hashName TagManifest ∅
  else Manifest.mk (filepath.Join pathToFile ("manifest-" +:+ hashName +:+ ".txt"))
         hashName PayloadManifest ∅.

(** Every call succeeds: directories and files can be written, a digest
    is a fixed text naming the algorithm and the file, the directory
    walked is empty, and nothing can be read back. *)
Definition all_ok : script := λ c,
  match c with
  | os_Mkdir _ | os_MkdirAll _ => None
  | os_Stat _ => inl {| IsDir := true |}
  | os_Args0 => "bagins.test"
  | log_Println _ _ => tt
  | filepath_Walk _ => []
  | NewManifest pathToFile hashName => inl (reference_NewManifest pathToFile hashName)
  | ReadManifest pathToFile => (Manifest.mk pathToFile "" PayloadManifest ∅, [])
  | NewPayload _ | NewTagFile _ => None
  | ReadTagFile _ => (None, ["not a tag file"])
  | TagFile_Create _ | Manifest_Create _ => None
  | bagutil_FileChecksum path algorithm => inl (algorithm +:+ "(" +:+ path +:+ ")")
  end.

(** The text of a tag file, one [<field-name>: <value>] per field,
    closed by a semicolon in place of the line end. *)
Definition render (tf : TagFile.t) : string :=
  foldr (λ f text, TagField.Label f +:+ ": " +:+ TagField.Value f +:+ ";" +:+ text)
    "" (TagFile.Data tf).

(** A disk of tag files: [TagFile.Create] stores the text of the tag file
    under its name unless the name is in [unwritable]; a manifest cannot be
    written either when its name is in [unwritable]; [FileChecksum] answers
    with the algorithm applied to the text stored, and fails on a file that
    is not there. Every other call is answered as in [all_ok]. *)
Definition disk (unwritable : list string) : handler (gmap string string) := λ c,
  match c return gmap string string → resp c * gmap string string with
  | TagFile_Create tf => λ files,
      if bool_decide (TagFile.Name tf ∈ unwritable)
      then (Some ("open " +:+ TagFile.Name tf +:+ ": permission denied"), files)
      else (None, <[TagFile.Name tf := render tf]> files)
  | Manifest_Create m => λ files,
      if bool_decide (Manifest.Name m ∈ unwritable)
      then (Some ("open " +:+ Manifest.Name m +:+ ": permission denied"), files)
      else (None, files)
  | bagutil_FileChecksum path algorithm => λ files,
      match files !! path with
      | Some text => (inl (algorithm +:+ "(" +:+ text +:+ ")"), files)
      | None => (inr ("open " +:+ path +:+ ": no such file or directory"), files)
      end
  | c => λ files, (all_ok c, files)
  end.

(** ** Vocabulary of the properties *)

(** What [Save] never changes in a manifest. *)
Definition header (m : Manifest.t) : string * string * ManifestType :=
  (Manifest.Name m, Manifest.Algorithm m, Manifest.Type_ m).

(** The algorithms of the tag manifests, in the order of [b.Manifests]. *)
Definition tag_algorithms (ms : list Manifest.t) : list string :=
  Manifest.Algorithm <$> filter (λ m, Manifest.Type_ m = TagManifest) ms.

(** The calls [Save] makes for one tag file: the directory, the file, and
    its checksum once per tag manifest. *)
Definition tag_file_calls (ms : list Manifest.t) (tf : TagFile.t) : list call :=
  [os_MkdirAll (filepath.Dir (TagFile.Name tf)); TagFile_Create tf]
  ++ (bagutil_FileChecksum (TagFile.Name tf) <$> tag_algorithms ms).

Definition tag_files_calls (ms : list Manifest.t) (tfs : list TagFile.t) : list call :=
  concat (tag_file_calls ms <$> tfs).




Definition failed_checksum (e : event) : bool :=
  let 'Ev c r := e in
  match c return resp c → bool with
  | bagutil_FileChecksum _ _ => λ r, match r with inr _ => true | inl _ => false end
  | _ => λ _, false
  end r.

(** The error of a call to [Manifest.Create] that failed. *)
Definition failed_manifest_write (e : event) : option error :=
  let 'Ev c r := e in
  match c return resp c → option error with
  | Manifest_Create _ => λ r, r
  | _ => λ _, None
  end r.

Definition is_Manifest_Create (c : call) : bool :=
  match c with Manifest_Create _ => true | _ => false end.


(** The test by which [findManifests] takes a listed file for a manifest. *)
Definition manifest_name (bagPath fName : string) : bool :=
  strings.HasPrefix (filepath.Join bagPath fName) (filepath.Join bagPath "manifest-")
  || strings.HasPrefix (filepath.Join bagPath fName) (filepath.Join bagPath "tagmanifest-").

(** The algorithms of the manifests some pointers lead to. *)
Definition algorithms_at (indexes : list nat) (ms : list Manifest.t) : list string :=
  omap (λ i, Manifest.Algorithm <$> ms !! i) indexes.

(** [m'] is [m] except for entries of [Data] under the keys [keys], and
    only if [m] is a tag manifest. *)
Definition changed_by (keys : list string) (m m' : Manifest.t) : Prop :=
  header m' = header m ∧
  ∀ key, Manifest.Data m' !! key ≠ Manifest.Data m !! key →
         Manifest.Type_ m = TagManifest ∧ key ∈ keys.

(** The entry of [m] under [key] is a digest that [FileChecksum]
    answered in [tr] for [key] and the algorithm of [m]. *)
Definition recorded (tr : list event) (key : string) (m : Manifest.t) : Prop :=
  ∃ digest,
    Ev (bagutil_FileChecksum key (Manifest.Algorithm m)) (inl digest) ∈ tr
    ∧ Manifest.Data m !! key = Some digest.

(** A run that ended in a checksum that could not be computed, part of
    the way through the calls [expected]. *)
Definition stopped_at_failed_checksum (tr : list event) (expected : list call) : Prop :=
  ∃ pre e rest,
    tr = pre ++ [e] ∧ failed_checksum e = true ∧ expected = (call_of <$> tr) ++ rest.

(** The answer of a handler to a call, and its state afterwards. *)
Definition answer {W} (h : handler W) (c : call) (w : W) : resp c := (h c w).1.
Definition after {W} (h : handler W) (c : call) (w : W) : W := (h c w).2.

(** The error answered to a call that [NewBag] makes before it saves:
    making a directory, creating a manifest, opening the payload, and
    registering the still empty [bagit.txt]. *)
Definition setup_failure (e : event) : option error :=
  let 'Ev c r := e in
  match c return resp c → option error with
  | os_Mkdir _ | os_MkdirAll _ | NewPayload _ | NewTagFile _ => λ r, r
  | NewManifest _ _ => λ r, err_of r
  | TagFile_Create tf => λ r, if bool_decide (TagFile.Data tf = []) then r else None
  | _ => λ _, None
  end r.

(** [tr] ends in a call of the setup that failed with [err]. *)
Definition ends_in_setup_failure (tr : list event) (err : error) : Prop :=
  ∃ pre e, tr = pre ++ [e] ∧ setup_failure e = Some err.

(** The fields [createBagItFile] gives to [bagit.txt]. *)
Definition bagit_fields : list TagField.t :=
  [TagField.NewTagField "BagIt-Version" "0.97";
   TagField.NewTagField "Tag-File-Character-Encoding" "UTF-8"].

(** ** Example bags *)

Definition bagit_txt : TagFile.t :=
  TagFile.mk "/bags/b/bagit.txt"
    [TagField.NewTagField "BagIt-Version" "0.97";
     TagField.NewTagField "Tag-File-Character-Encoding" "UTF-8"].

Definition bag_info_txt : TagFile.t :=
  TagFile.mk "/bags/b/bag-info.txt" [TagField.NewTagField "Source-Organization" "bagins"].

(** A bag with two tag files, a payload manifest and a tag manifest. *)
Definition two_tag_bag : Bag.t :=
  Bag.mk "/bags/b" (Payload.mk "/bags/b/data")
    [Manifest.mk "/bags/b/manifest-md5.txt" "md5" PayloadManifest ∅;
     Manifest.mk "/bags/b/tagmanifest-md5.txt" "md5" TagManifest ∅]
    {["bagit.txt" := bagit_txt; "bag-info.txt" := bag_info_txt]}.



(** The same directory as a bag of the single-manifest revision, with
    [bagit.txt] as its tag file. *)
Definition single_bag : SingleManifestBag.t :=
  SingleManifestBag.mk "/bags/b" (Payload.mk "/bags/b/data")
    (Manifest.mk "/bags/b/manifest-md5.txt" "md5" PayloadManifest
       {["data/a.txt" := "5d41402abc4b2a76b9719d911017c592"]})
    {["bagit.txt" := bagit_txt]}.

Definition file_entry (path : string) : WalkEntry :=
  {| wPath := path; wIsDir := false; wErr := None |}.
Definition dir_entry (path : string) : WalkEntry :=
  {| wPath := path; wIsDir := true; wErr := None |}.

(** The answers of [all_ok], except that the directory walked has the
    entries [entries]. *)
Definition walking (entries : list WalkEntry) : script := λ c,
  match c return resp c with
  | filepath_Walk _ => entries
  | c => all_ok c
  end.

(** [/bags/b] with a tag file, a manifest and two payload files, one of
    them in a directory of its own, as [filepath.Walk] goes through it. *)
Definition payload_walk : list WalkEntry :=
  [dir_entry "/bags/b";
   file_entry "/bags/b/bagit.txt";
   dir_entry "/bags/b/data";
   file_entry "/bags/b/data/a.txt";
   dir_entry "/bags/b/data/sub";
   file_entry "/bags/b/data/sub/b.txt";
   file_entry "/bags/b/manifest-md5.txt"].

(** A walk that cannot read the directory [/bags/b/data]. *)
Definition unreadable_walk : list WalkEntry :=
  [dir_entry "/bags/b";
   file_entry "/bags/b/bagit.txt";
   dir_entry "/bags/b/data";
   {| wPath := "/bags/b/data"; wIsDir := true;
      wErr := Some "open /bags/b/data: permission denied" |};
   file_entry "/bags/b/manifest-md5.txt"].

(** [/bags/b] holds the payload directory and [tagmanifest-sha1.txt],
    which parses; there is no [manifest-<algorithm>.txt]. *)
Definition tagmanifest_only : script := λ c,
  match c return resp c with
  | filepath_Walk _ =>
      [dir_entry "/bags/b"; dir_entry "/bags/b/data";
       file_entry "/bags/b/tagmanifest-sha1.txt"]
  | ReadManifest pathToFile => (Manifest.mk pathToFile "sha1" TagManifest ∅, [])
  | c => all_ok c
  end.








(** ** Vocabulary of the further properties *)

(** Text of ASCII bytes alone. *)
Definition ascii_text (s : string) : bool :=
  forallb (λ c, Nat.ltb (nat_of_ascii c) 128) (list_ascii_of_string s).

(** The error of a directory, tag file or manifest that could not be
    written. *)
Definition write_error (e : event) : option error :=
  let 'Ev c r := e in
  match c return resp c → option error with
  | os_MkdirAll _ | TagFile_Create _ | Manifest_Create _ => λ r, r
  | _ => λ _, None
  end r.

(** The error [Save] builds for a checksum that could not be computed. *)
Definition checksum_error (e : event) : option error :=
  let 'Ev c r := e in
  match c return resp c → option error with
  | bagutil_FileChecksum path algorithm => λ r,
      match r with
      | inr err =>
          Some ("Error calculating " +:+ algorithm +:+ " checksum for file "
                +:+ path +:+ ": " +:+ err)
      | inl _ => None
      end
  | _ => λ _, None
  end r.

(** A run of [Save] or of one of its loops that ended in the checksum
    error [msg], the first of the run. *)
Definition ends_in_checksum_error (tr : list event) (msg : error) : Prop :=
  ∃ pre e, tr = pre ++ [e] ∧ Forall (λ e, checksum_error e = None) pre
           ∧ checksum_error e = Some msg.

Definition is_FileChecksum (c : call) : bool :=
  match c with bagutil_FileChecksum _ _ => true | _ => false end.

(** The calls [Save] and [Close] make to write the tag files. *)
Definition tag_file_writes (tfs : list TagFile.t) : list call :=
  concat ((λ tf, [os_MkdirAll (filepath.Dir (TagFile.Name tf)); TagFile_Create tf]) <$> tfs).

(** The arguments of a call to [NewManifest]. *)
Definition manifest_request (c : call) : option (string * string) :=
  match c with
  | NewManifest pathToFile hashName => Some (pathToFile, hashName)
  | _ => None
  end.

(** The requests [NewBag] makes for one hash name. *)
Definition manifest_requests (bagPath : string) (createTagManifests : bool)
    (hashName : string) : list (string * string) :=
  let lc := strings.ToLower hashName in
  if createTagManifests
  then [(bagPath, lc); (filepath.Join bagPath ("tagmanifest-" +:+ lc +:+ ".txt"), lc)]
  else [(bagPath, lc)].

Definition is_ReadTagFile (c : call) : bool :=
  match c with ReadTagFile _ => true | _ => false end.

Definition is_TagFile_Create (c : call) : bool :=
  match c with TagFile_Create _ => true | _ => false end.

(** The path and the tag file of a call to [ReadTagFile] that returned
    one. *)
Definition tag_file_read (e : event) : option (string * TagFile.t) :=
  let 'Ev c r := e in
  match c return resp c → option (string * TagFile.t) with
  | ReadTagFile path => λ r, (λ tf, (path, tf)) <$> r.1
  | _ => λ _, None
  end r.

(** [os.Stat] answered with an error that [IsNotExist] takes for a
    missing file. *)
Definition stat_missing (IsNotExist : error → bool) (e : event) : bool :=
  let 'Ev c r := e in
  match c return resp c → bool with
  | os_Stat _ => λ r, match r with inr err => IsNotExist err | inl _ => false end
  | _ => λ _, false
  end r.

(** [f] is what [visit] appends for [entry]: the entry was read, it is
    a file or does not start with the path of the payload, and [f] is its
    path relative to the bag, other than the bag itself. *)
Definition listed (b : Bag.t) (entry : WalkEntry) (f : string) : Prop :=
  wErr entry = None
  ∧ (wIsDir entry = false
     ∨ strings.HasPrefix (wPath entry) (Payload.Name (Bag.payload b)) = false)
  ∧ filepath.Rel (Bag.Path b) (wPath entry) = inl f
  ∧ f ≠ ".".

(** [/bags/b] with [bagit.txt] and nothing else; the manifest of
    [single_bag] is not there. *)
Definition missing_manifest : script := λ c,
  match c return resp c with
  | os_Stat path =>
      if bool_decide (path = "/bags/b/bagit.txt") then inl {| IsDir := false |}
      else inr ("stat " +:+ path +:+ ": no such file or directory")
  | c => all_ok c
  end.

(** A stand-in for [os.IsNotExist] on error texts. *)
Definition no_such_file (err : error) : bool :=
  strings.Contains err "no such file or directory".

(** ** Runs of programs *)

(** One step of a run, leaving everything but the program untouched. *)
Ltac run_simpl :=
  cbn [run mbind prog_bind bind perform mret prog_ret result world trace fst snd].

Section Runs.
Context {W : Type} (h : handler W).

Lemma run_bind {A B} (p : prog A) (f : A → prog B) (w : W) :
  run h (p ≫= f) w =
    Outcome (result (run h (f (result (run h p w))) (world (run h p w))))
            (world (run h (f (result (run h p w))) (world (run h p w))))
            (trace (run h p w) ++ trace (run h (f (result (run h p w))) (world (run h p w)))).
Proof.
  revert w. induction p as [a | c k IH]; intros w.
  - simpl. by destruct (run h (f a) w).
  - change (Vis c k ≫= f) with (Vis c (λ r, k r ≫= f)).
    simpl. rewrite IH. done.
Qed.

End Runs.

(** ** The save sequence *)

Lemma changed_by_refl keys m : changed_by keys m m.
Proof. split; [done | intros key Hne; by destruct Hne]. Qed.

Lemma changed_by_trans keys m1 m2 m3 :
  changed_by keys m1 m2 → changed_by keys m2 m3 → changed_by keys m1 m3.
Proof.
  intros [Hh12 Hk12] [Hh23 Hk23]. split; [congruence|].
  intros key Hne.
  destruct (decide (Manifest.Data m2 !! key = Manifest.Data m1 !! key)) as [Heq|Hne12].
  - destruct (Hk23 key) as [Ht ?]; [congruence|].
    split; [|done]. unfold header in Hh12. congruence.
  - by apply Hk12.
Qed.

Lemma changed_by_mono keys keys' m m' :
  keys ⊆ keys' → changed_by keys m m' → changed_by keys' m m'.
Proof. intros Hsub [Hh Hk]. split; [done|]. intros key Hne. destruct (Hk key Hne). auto. Qed.

Lemma changed_by_setData key checksum m :
  Manifest.Type_ m = TagManifest →
  changed_by [key] m (Manifest.setData key checksum m).
Proof.
  intros Ht. split; [done|]. intros key' Hne. split; [done|].
  destruct (decide (key = key')) as [->|Hkk]; [set_solver|].
  simpl in Hne. by rewrite lookup_insert_ne in Hne.
Qed.

Lemma Forall2_changed_by_refl keys ms : Forall2 (changed_by keys) ms ms.
Proof. apply Forall_Forall2_diag, Forall_forall. intros. apply changed_by_refl. Qed.

Lemma Forall2_changed_by_trans keys ms1 ms2 ms3 :
  Forall2 (changed_by keys) ms1 ms2 → Forall2 (changed_by keys) ms2 ms3 →
  Forall2 (changed_by keys) ms1 ms3.
Proof. intros H12 H23. eapply Forall2_trans; [|done..]. apply changed_by_trans. Qed.

Lemma Forall2_changed_by_mono keys keys' ms ms' :
  keys ⊆ keys' → Forall2 (changed_by keys) ms ms' → Forall2 (changed_by keys') ms ms'.
Proof. intros Hsub HF. eapply Forall2_impl; [done|]. intros. by eapply changed_by_mono. Qed.

Lemma changed_by_lookup keys ms ms' i :
  Forall2 (changed_by keys) ms ms' → header <$> ms' !! i = header <$> ms !! i.
Proof.
  intros HF. destruct (ms !! i) as [m|] eqn:Hm.
  - destruct (Forall2_lookup_l _ _ _ _ _ HF Hm) as (m' & -> & [Hh _]). simpl. by f_equal.
  - apply lookup_ge_None in Hm. rewrite (Forall2_length _ _ _ HF) in Hm.
    apply lookup_ge_None in Hm. by rewrite Hm.
Qed.

Lemma algorithms_at_cons i indexes ms :
  algorithms_at (i :: indexes) ms
  = match ms !! i with
    | Some m => Manifest.Algorithm m :: algorithms_at indexes ms
    | None => algorithms_at indexes ms
    end.
Proof. unfold algorithms_at. simpl. by destruct (ms !! i). Qed.

Lemma algorithms_at_changed_by keys indexes ms ms' :
  Forall2 (changed_by keys) ms ms' → algorithms_at indexes ms' = algorithms_at indexes ms.
Proof.
  intros HF. induction indexes as [|i indexes IH]; [done|].
  rewrite !algorithms_at_cons, IH. pose proof (changed_by_lookup _ _ _ i HF) as Hi.
  destruct (ms' !! i) as [m'|], (ms !! i) as [m|]; simpl in *; try done.
  injection Hi as Hn Ha Ht. by rewrite Ha.
Qed.

Lemma algorithms_at_manifests_of_type manifestType pre ms :
  algorithms_at (Bag.manifests_of_type manifestType (length pre) ms) (pre ++ ms)
  = Manifest.Algorithm <$> filter (λ m, Manifest.Type_ m = manifestType) ms.
Proof.
  revert pre. induction ms as [|m ms IH]; intros pre; [done|].
  specialize (IH (pre ++ [m])). rewrite length_app, Nat.add_1_r, <- app_assoc in IH.
  simpl in *. rewrite filter_cons. destruct (decide (Manifest.Type_ m = manifestType)).
  - rewrite algorithms_at_cons, list_lookup_middle by done. by rewrite IH.
  - done.
Qed.

Lemma algorithms_at_GetManifests b :
  algorithms_at (Bag.GetManifests TagManifest b) (Bag.Manifests b)
  = tag_algorithms (Bag.Manifests b).
Proof. apply (algorithms_at_manifests_of_type TagManifest []). Qed.

Lemma manifests_of_type_lookup manifestType pre ms :
  Forall (λ i, ∀ m, (pre ++ ms) !! i = Some m → Manifest.Type_ m = manifestType)
    (Bag.manifests_of_type manifestType (length pre) ms).
Proof.
  revert pre. induction ms as [|m ms IH]; intros pre; [constructor|].
  specialize (IH (pre ++ [m])). rewrite length_app, Nat.add_1_r, <- app_assoc in IH.
  simpl in *. destruct (decide (Manifest.Type_ m = manifestType)); [|done].
  constructor; [|done]. intros m'. rewrite list_lookup_middle by done. congruence.
Qed.

Lemma tagged_changed_by keys indexes ms ms' :
  Forall2 (changed_by keys) ms ms' →
  Forall (λ i, ∀ m, ms !! i = Some m → Manifest.Type_ m = TagManifest) indexes →
  Forall (λ i, ∀ m, ms' !! i = Some m → Manifest.Type_ m = TagManifest) indexes.
Proof.
  intros HF Hall. eapply Forall_impl; [done|]. simpl. intros i Hi m' Hm'.
  pose proof (changed_by_lookup _ _ _ i HF) as Hl. rewrite Hm' in Hl.
  destruct (ms !! i) as [m|]; [|done]. injection Hl as _ _ Ht. rewrite Ht. by apply Hi.
Qed.

Section Save.
Context {W : Type} (h : handler W).

Lemma Save_checksums_cons tf i rest ms :
  Bag.Save_checksums tf (i :: rest) ms =
    match ms !! i with
    | None => Bag.Save_checksums tf rest ms
    | Some manifest =>
        r ← perform (bagutil_FileChecksum (TagFile.Name tf) (Manifest.Algorithm manifest));
        match r with
        | inr err =>
            Ret (ms, Some [ "Error calculating " +:+ Manifest.Algorithm manifest
                            +:+ " checksum for file " +:+ TagFile.Name tf +:+ ": " +:+ err ])
        | inl checksum =>
            Bag.Save_checksums tf rest
              (alter (Manifest.setData (TagFile.Name tf) checksum) i ms)
        end
    end.
Proof. reflexivity. Qed.

Lemma Save_checksums_spec tf indexes ms w :
  Forall (λ i, ∀ m, ms !! i = Some m → Manifest.Type_ m = TagManifest) indexes →
  let o := run h (Bag.Save_checksums tf indexes ms) w in
  let expected := bagutil_FileChecksum (TagFile.Name tf) <$> algorithms_at indexes ms in
  Forall2 (changed_by [TagFile.Name tf]) ms (result o).1 ∧
  (((result o).2 = None ∧ calls o = expected)
   ∨ (is_Some (result o).2 ∧ stopped_at_failed_checksum (trace o) expected)).
Proof.
  revert ms w. induction indexes as [|i indexes IH]; intros ms w Htag; cbv zeta.
  { simpl. split; [apply Forall2_changed_by_refl | by left]. }
  apply Forall_cons in Htag as [Hi Htag].
  rewrite algorithms_at_cons, Save_checksums_cons.
  destruct (ms !! i) as [manifest|] eqn:Hm; [|by apply IH].
  unfold calls. run_simpl.
  destruct (h _ w) as [[checksum|err] w'] eqn:Hh; run_simpl.
  - set (ms' := alter (Manifest.setData (TagFile.Name tf) checksum) i ms).
    assert (Forall2 (changed_by [TagFile.Name tf]) ms ms') as Hstep.
    { apply Forall2_alter_r; [apply Forall2_changed_by_refl|].
      intros x y Hx Hy _. rewrite Hx in Hy, Hm. simplify_eq.
      apply changed_by_setData. by apply Hi. }
    destruct (IH ms' w') as [Hkeep Hcalls]; [by eapply tagged_changed_by|].
    rewrite (algorithms_at_changed_by _ _ _ _ Hstep) in Hcalls. unfold calls in Hcalls.
    split; [by eapply Forall2_changed_by_trans|].
    destruct Hcalls as [[Hnone Hcalls]|[Hsome (pre & e & rest & Htr & He & Hexp)]].
    + left. split; [done|]. by rewrite fmap_cons, Hcalls.
    + right. split; [done|]. eexists (_ :: pre), e, rest.
      rewrite Htr in *. split_and!; [done..|]. by rewrite !fmap_cons, Hexp.
  - split; [apply Forall2_changed_by_refl|]. right. split; [by eexists|].
    by eexists [], _, _.
Qed.

Lemma stopped_at_failed_checksum_cons e tr expected :
  stopped_at_failed_checksum tr expected →
  stopped_at_failed_checksum (e :: tr) (call_of e :: expected).
Proof.
  intros (pre & e' & rest & -> & He & ->). exists (e :: pre), e', rest.
  split_and!; [done..|]. by rewrite !fmap_cons.
Qed.

Lemma stopped_at_failed_checksum_app_l tr0 tr expected :
  stopped_at_failed_checksum tr expected →
  stopped_at_failed_checksum (tr0 ++ tr) ((call_of <$> tr0) ++ expected).
Proof.
  intros Hs. induction tr0 as [|e tr0 IH]; [done|].
  rewrite fmap_cons. simpl. by apply stopped_at_failed_checksum_cons.
Qed.

Lemma stopped_at_failed_checksum_app_r tr expected more :
  stopped_at_failed_checksum tr expected →
  stopped_at_failed_checksum tr (expected ++ more).
Proof.
  intros (pre & e' & rest & -> & He & ->). exists pre, e', (rest ++ more).
  split_and!; [done..|]. by rewrite <- app_assoc.
Qed.

Lemma Save_tagfiles_spec tagManifests tfs ms errs w :
  Forall (λ i, ∀ m, ms !! i = Some m → Manifest.Type_ m = TagManifest) tagManifests →
  let o := run h (Bag.Save_tagfiles tagManifests tfs ms errs) w in
  let expected :=
    concat ((λ tf, [os_MkdirAll (filepath.Dir (TagFile.Name tf)); TagFile_Create tf]
                   ++ (bagutil_FileChecksum (TagFile.Name tf)
                         <$> algorithms_at tagManifests ms)) <$> tfs) in
  Forall2 (changed_by (TagFile.Name <$> tfs)) ms (result o).1.1 ∧
  (((result o).2 = None ∧ calls o = expected)
   ∨ (is_Some (result o).2 ∧ stopped_at_failed_checksum (trace o) expected)).
Proof.
  revert ms errs w. induction tfs as [|tf tfs IH]; intros ms errs w Htag; cbv zeta.
  { simpl. split; [apply Forall2_changed_by_refl | by left]. }
  unfold calls. rewrite !fmap_cons. cbn [concat Bag.Save_tagfiles]. run_simpl.
  destruct (h (os_MkdirAll _) w) as [e1 w1]. run_simpl.
  destruct (h (TagFile_Create tf) w1) as [e2 w2]. run_simpl.
  rewrite run_bind. run_simpl.
  destruct (Save_checksums_spec tf tagManifests ms w2 Htag) as [Hkeep Hcalls].
  destruct (run h (Bag.Save_checksums tf tagManifests ms) w2)
    as [[ms' returned] w3 tr3]. unfold calls in Hcalls. run_simpl. simpl in Hkeep, Hcalls.
  destruct Hcalls as [[-> Hcalls]|[[errors ->] Hstop]].
  - destruct (IH ms' ((errs ++ errs_of e1) ++ errs_of e2) w3) as [Hkeep' Hcalls'];
      [by eapply tagged_changed_by|].
    rewrite (algorithms_at_changed_by _ _ _ _ Hkeep) in Hcalls'.
    split.
    { eapply Forall2_changed_by_trans; eapply Forall2_changed_by_mono; [|done| |done].
      - intros key ->%list_elem_of_singleton. apply elem_of_cons. by left.
      - intros key Hkey. apply elem_of_cons. by right. }
    destruct Hcalls' as [[Hnone Hcalls']|[Hsome Hstop]].
    + left. split; [done|]. unfold calls in Hcalls'.
      by rewrite !fmap_cons, fmap_app, Hcalls, Hcalls', <- !app_assoc.
    + right. split; [done|]. cbn [app].
      apply (stopped_at_failed_checksum_cons (Ev (os_MkdirAll _) e1)).
      apply (stopped_at_failed_checksum_cons (Ev (TagFile_Create tf) e2)).
      rewrite <- Hcalls. by apply stopped_at_failed_checksum_app_l.
  - run_simpl. split.
    { eapply Forall2_changed_by_mono; [|done].
      intros key ->%list_elem_of_singleton. apply elem_of_cons. by left. }
    right. split; [by eexists|]. rewrite app_nil_r. cbn [app].
    apply (stopped_at_failed_checksum_cons (Ev (os_MkdirAll _) e1)).
    apply (stopped_at_failed_checksum_cons (Ev (TagFile_Create tf) e2)).
    by apply stopped_at_failed_checksum_app_r.
Qed.

Lemma recorded_cons e tr key m : recorded tr key m → recorded (e :: tr) key m.
Proof. intros (digest & Hin & Hdata). exists digest. split; [|done]. by right. Qed.

Lemma recorded_app_l tr0 tr key m : recorded tr key m → recorded (tr0 ++ tr) key m.
Proof.
  intros (digest & Hin & Hdata). exists digest. split; [|done].
  apply elem_of_app. by right.
Qed.

Lemma recorded_app_r tr tr1 key m : recorded tr key m → recorded (tr ++ tr1) key m.
Proof.
  intros (digest & Hin & Hdata). exists digest. split; [|done].
  apply elem_of_app. by left.
Qed.

Lemma Save_checksums_frame tf indexes ms w j :
  j ∉ indexes →
  (result (run h (Bag.Save_checksums tf indexes ms) w)).1 !! j = ms !! j.
Proof.
  revert ms w. induction indexes as [|i indexes IH]; intros ms w Hj; [done|].
  apply not_elem_of_cons in Hj as [Hji Hj]. rewrite Save_checksums_cons.
  destruct (ms !! i) as [manifest|] eqn:Hm; [|by apply IH]. run_simpl.
  destruct (h _ w) as [[checksum|err] w'] eqn:Hh; run_simpl; [|done].
  rewrite IH by done. by apply list_lookup_alter_ne.
Qed.

Lemma Save_checksums_recorded tf indexes ms w i m' :
  let o := run h (Bag.Save_checksums tf indexes ms) w in
  (result o).2 = None → i ∈ indexes → (result o).1 !! i = Some m' →
  recorded (trace o) (TagFile.Name tf) m'.
Proof.
  revert ms w. induction indexes as [|i0 indexes IH]; intros ms w; cbv zeta;
    [by intros _ ?%elem_of_nil|].
  rewrite Save_checksums_cons. destruct (ms !! i0) as [manifest|] eqn:Hm.
  - run_simpl. destruct (h _ w) as [[checksum|err] w'] eqn:Hh; run_simpl; [|done].
    intros Hnone Hi Hm'. destruct (decide (i ∈ indexes)) as [Hin|Hnin].
    { apply recorded_cons. by eapply IH. }
    apply elem_of_cons in Hi as [->|Hi]; [|done].
    rewrite Save_checksums_frame, list_lookup_alter_eq, Hm in Hm' by done.
    injection Hm' as <-. exists checksum. split; [by left|]. apply lookup_insert_eq.
  - intros Hnone Hi Hm'. destruct (decide (i ∈ indexes)) as [Hin|Hnin].
    { by eapply IH. }
    apply elem_of_cons in Hi as [->|Hi]; [|done].
    rewrite Save_checksums_frame in Hm' by done. congruence.
Qed.

Lemma Save_tagfiles_recorded tagManifests tfs ms errs w tf i m' :
  Forall (λ i, ∀ m, ms !! i = Some m → Manifest.Type_ m = TagManifest) tagManifests →
  let o := run h (Bag.Save_tagfiles tagManifests tfs ms errs) w in
  (result o).2 = None → tf ∈ tfs → i ∈ tagManifests → (result o).1.1 !! i = Some m' →
  recorded (trace o) (TagFile.Name tf) m'.
Proof.
  revert tf ms errs w. induction tfs as [|tf0 tfs IH]; intros tf ms errs w Htag; cbv zeta;
    [by intros _ ?%elem_of_nil|].
  cbn [Bag.Save_tagfiles]. run_simpl.
  destruct (h (os_MkdirAll _) w) as [e1 w1]. run_simpl.
  destruct (h (TagFile_Create tf0) w1) as [e2 w2]. run_simpl.
  rewrite run_bind. run_simpl.
  destruct (Save_checksums_spec tf0 tagManifests ms w2 Htag) as [Hkeep _].
  pose proof (Save_checksums_recorded tf0 tagManifests ms w2 i) as Hrec. cbv zeta in Hrec.
  destruct (run h (Bag.Save_checksums tf0 tagManifests ms) w2)
    as [[ms1 [errors|]] w3 tr3]; run_simpl; [done|].
  simpl in Hkeep, Hrec.
  assert (Forall (λ i, ∀ m, ms1 !! i = Some m → Manifest.Type_ m = TagManifest)
            tagManifests) as Htag1 by (by eapply tagged_changed_by).
  destruct (Save_tagfiles_spec tagManifests tfs ms1 ((errs ++ errs_of e1) ++ errs_of e2)
              w3 Htag1) as [Hkeep' _].
  pose proof (λ tf1, IH tf1 ms1 ((errs ++ errs_of e1) ++ errs_of e2) w3 Htag1) as IH1.
  cbv zeta in IH1. clear IH.
  destruct (run h (Bag.Save_tagfiles tagManifests tfs ms1 _) w3)
    as [[[ms2 errs2] returned] w4 tr4].
  simpl in *. intros -> Htf Hi Hm'. do 2 apply recorded_cons.
  destruct (decide (TagFile.Name tf ∈ TagFile.Name <$> tfs)) as [Hin|Hnin].
  - apply list_elem_of_fmap in Hin as (tf1 & Hname & Hin). rewrite Hname.
    apply recorded_app_l. by apply IH1.
  - assert (tf = tf0) as ->.
    { apply elem_of_cons in Htf as [->|Htf]; [done|].
      destruct Hnin. apply list_elem_of_fmap. by exists tf. }
    destruct (Forall2_lookup_r _ _ _ _ _ Hkeep' Hm') as (m1 & Hm1 & [Hhead Hsame]).
    destruct (Hrec m1 eq_refl Hi Hm1) as (digest & Hev & Hdata).
    apply recorded_app_r. exists digest.
    assert (Manifest.Algorithm m' = Manifest.Algorithm m1) as -> by (by injection Hhead).
    split; [done|].
    destruct (decide (Manifest.Data m' !! TagFile.Name tf0
                      = Manifest.Data m1 !! TagFile.Name tf0)) as [->|Hne]; [done|].
    by destruct (Hsame _ Hne).
Qed.

Lemma elem_of_manifests_of_type manifestType pre ms i m :
  (pre ++ ms) !! i = Some m → length pre ≤ i → Manifest.Type_ m = manifestType →
  i ∈ Bag.manifests_of_type manifestType (length pre) ms.
Proof.
  revert pre. induction ms as [|m0 ms IH]; intros pre Hi Hle Ht.
  { rewrite app_nil_r in Hi. apply lookup_lt_Some in Hi. lia. }
  specialize (IH (pre ++ [m0])). rewrite length_app, Nat.add_1_r, <- app_assoc in IH.
  simpl in *. destruct (decide (i = length pre)) as [->|Hne].
  - rewrite list_lookup_middle in Hi by done. injection Hi as ->.
    rewrite decide_True by done. by left.
  - assert (i ∈ Bag.manifests_of_type manifestType (S (length pre)) ms) as Hin
      by (apply IH; [done|lia|done]).
    destruct (decide (Manifest.Type_ m0 = manifestType)); [by right|done].
Qed.

Lemma Save_manifests_calls ms errs w :
  calls (run h (Bag.Save_manifests ms errs) w) = Manifest_Create <$> ms.
Proof.
  revert errs w. induction ms as [|m ms IH]; intros errs w; [done|].
  unfold calls in *. cbn [Bag.Save_manifests]. run_simpl.
  by rewrite !fmap_cons, IH.
Qed.

Lemma tag_files_calls_not_manifest ms tfs c :
  c ∈ tag_files_calls ms tfs → is_Manifest_Create c = false.
Proof.
  unfold tag_files_calls. induction tfs as [|tf tfs IH]; [by intros ?%elem_of_nil|].
  rewrite fmap_cons. cbn [concat]. intros [Hc|Hc]%elem_of_app; [|by apply IH].
  unfold tag_file_calls in Hc. apply elem_of_app in Hc as [Hc|Hc].
  - apply elem_of_cons in Hc as [->|Hc]; [done|].
    by apply list_elem_of_singleton in Hc as ->.
  - by apply list_elem_of_fmap in Hc as (a & -> & _).
Qed.

Lemma Save_spec tfs b w :
  let o := run h (Bag.Save tfs b) w in
  let b' := (result o).1 in
  ((calls o = tag_files_calls (Bag.Manifests b) tfs ++ (Manifest_Create <$> Bag.Manifests b')
    ∧ ∀ tf m', tf ∈ tfs → m' ∈ Bag.Manifests b' → Manifest.Type_ m' = TagManifest →
               recorded (trace o) (TagFile.Name tf) m')
   ∨ (stopped_at_failed_checksum (trace o) (tag_files_calls (Bag.Manifests b) tfs)
      ∧ ∀ c, c ∈ calls o → is_Manifest_Create c = false))
  ∧ Forall2 (changed_by (TagFile.Name <$> tfs)) (Bag.Manifests b) (Bag.Manifests b')
  ∧ Bag.tagfiles b' = Bag.tagfiles b ∧ Bag.pathToFile b' = Bag.pathToFile b.
Proof.
  cbv zeta. unfold Bag.Save. rewrite run_bind.
  pose proof (manifests_of_type_lookup TagManifest [] (Bag.Manifests b)) as Htag.
  destruct (Save_tagfiles_spec (Bag.GetManifests TagManifest b) tfs (Bag.Manifests b) [] w)
    as [Hkeep Hcalls]; [done|].
  pose proof (λ tf i m', Save_tagfiles_recorded (Bag.GetManifests TagManifest b) tfs
                (Bag.Manifests b) [] w tf i m' Htag) as Hrec. cbv zeta in Hrec.
  rewrite algorithms_at_GetManifests in Hcalls.
  change (concat _) with (tag_files_calls (Bag.Manifests b) tfs) in Hcalls.
  destruct (run h (Bag.Save_tagfiles _ tfs _ []) w) as [[[ms errs] returned] w1 tr1].
  pose proof (Save_manifests_calls ms errs w1) as Hms.
  unfold calls in *. simpl in Hkeep, Hcalls, Hrec. run_simpl.
  destruct Hcalls as [[-> Hcalls]|[[errors ->] Hstop]].
  - rewrite run_bind. run_simpl. rewrite !app_nil_r. split_and!; [|done..].
    left. cbn [Bag.Manifests Bag.with_Manifests]. split.
    { by rewrite fmap_app, Hcalls, Hms. }
    intros tf m' Htf Hm' Ht. apply recorded_app_r.
    apply list_elem_of_lookup_1 in Hm' as [i Hi].
    apply (Hrec tf i m'); [done..| |done].
    destruct (Forall2_lookup_r _ _ _ _ _ Hkeep Hi) as (m & Hm & [Hhead _]).
    apply (elem_of_manifests_of_type TagManifest [] (Bag.Manifests b) i m);
      [done|simpl; lia|].
    injection Hhead as _ _ Hty. congruence.
  - run_simpl. rewrite !app_nil_r. split_and!; [|done..].
    right. split; [done|]. intros c Hc.
    destruct Hstop as (pre & e & rest & _ & _ & Hexp).
    apply (tag_files_calls_not_manifest (Bag.Manifests b) tfs). rewrite Hexp.
    apply elem_of_app. by left.
Qed.

End Save.



(** C3 (the code departs from the claim). The first tag file of
    [two_tag_bag] cannot be written, so its checksum cannot be computed
    either: [Save] returns at that checksum with this one error. The error
    of the write is lost, the second tag file is never written and no
    manifest is written. In the other order of the two tag files the errors
    returned are the same and no manifest is written either. *)
Theorem Save_returns_at_failed_checksum :
  let o := run (disk ["/bags/b/bagit.txt"])
               (Bag.Save [bagit_txt; bag_info_txt] two_tag_bag) ∅ in
  let o' := run (disk ["/bags/b/bagit.txt"])
                (Bag.Save [bag_info_txt; bagit_txt] two_tag_bag) ∅ in
  (result o).2
  = ["Error calculating md5 checksum for file /bags/b/bagit.txt: open /bags/b/bagit.txt: no such file or directory"]
  ∧ trace o
    = [Ev (os_MkdirAll "/bags/b") None;
       Ev (TagFile_Create bagit_txt) (Some "open /bags/b/bagit.txt: permission denied");
       Ev (bagutil_FileChecksum "/bags/b/bagit.txt" "md5")
          (inr "open /bags/b/bagit.txt: no such file or directory")]
  ∧ (result o').2 = (result o).2
  ∧ filter (λ c, is_Manifest_Create c = true) (calls o') = [].
Proof. split_and!; vm_compute; reflexivity. Qed.

(** C2 (the code departs from the claim). After
    [NewBag("/tmp", "bag1", ["md5"], true)] on a disk where every write
    succeeds, the one entry of the tag manifest is keyed by the path of
    [bagit.txt] joined to the path of the bag, and there is no entry under
    [bagit.txt]; the digest is that of the two fields written. *)
Theorem NewBag_tag_manifest_key :
  let o := run (disk []) (Bag.NewBag "/tmp" "bag1" ["md5"] true) ∅ in
  (λ b, (λ m, (Manifest.Name m, Manifest.Type_ m, map_to_list (Manifest.Data m),
               Manifest.Data m !! "bagit.txt"))
        <$> Bag.Manifests b) <$> (result o).1
  = Some [("/tmp/bag1/manifest-md5.txt", PayloadManifest, [], None);
          ("/tmp/bag1/tagmanifest-md5.txt", TagManifest,
           [("/tmp/bag1/bagit.txt",
             "md5(BagIt-Version: 0.97;Tag-File-Character-Encoding: UTF-8;)")],
           None)].
Proof. vm_compute. reflexivity. Qed.

(** C8 (the code departs from the claim). The tag manifest cannot be
    written: [Save], run at the end of [NewBag], reports it, and [NewBag]
    returns the bag and no error. *)
Theorem NewBag_drops_save_errors :
  let o := run (disk ["/tmp/bag1/tagmanifest-md5.txt"])
               (Bag.NewBag "/tmp" "bag1" ["md5"] true) ∅ in
  (λ e, (call_of e, failed_manifest_write e)) <$> last (trace o)
  = Some (Manifest_Create
            (Manifest.mk "/tmp/bag1/tagmanifest-md5.txt" "md5" TagManifest
               {["/tmp/bag1/bagit.txt" :=
                   "md5(BagIt-Version: 0.97;Tag-File-Character-Encoding: UTF-8;)"]}),
          Some "open /tmp/bag1/tagmanifest-md5.txt: permission denied")
  ∧ Bag.pathToFile <$> (result o).1 = Some "/tmp/bag1"
  ∧ (result o).2 = None.
Proof. split_and!; vm_compute; reflexivity. Qed.

(** ** Creating a bag *)

Lemma bagit_registered (tf0 tf : TagFile.t) :
  <["bagit.txt" := tf]> (<["bagit.txt" := tf]> (<["bagit.txt" := tf0]> (∅ : gmap string TagFile.t)))
  = {["bagit.txt" := tf]}.
Proof. by rewrite !insert_insert_eq, insert_empty. Qed.

Section NewBag.
Context {W : Type} (h : handler W).

Lemma AddTagfile_spec name b w :
  let o := run h (Bag.AddTagfile name b) w in
  (result o).2 = None →
  (result o).1
  = Bag.with_tagfiles
      (<[name := TagFile.mk (filepath.Join (Bag.Path b) name) []]> (Bag.tagfiles b)) b.
Proof.
  cbv zeta. unfold Bag.AddTagfile. run_simpl.
  destruct (h (os_MkdirAll _) w) as [[err|] w1]; run_simpl; [done|].
  destruct (h (NewTagFile _) w1) as [[err|] w2]; run_simpl; [done|].
  by destruct (h (TagFile_Create _) w2) as [[err|] w3]; run_simpl.
Qed.

Lemma createBagItFile_spec b w tf :
  let o := run h (Bag.createBagItFile b) w in
  (result o).2 = inl tf →
  tf = TagFile.mk (filepath.Join (Bag.Path b) "bagit.txt") bagit_fields
  ∧ (result o).1
    = Bag.with_tagfiles
        (<["bagit.txt" := tf]>
           (<["bagit.txt" := TagFile.mk (filepath.Join (Bag.Path b) "bagit.txt") []]>
              (Bag.tagfiles b))) b.
Proof.
  cbv zeta. unfold Bag.createBagItFile. rewrite run_bind.
  pose proof (AddTagfile_spec "bagit.txt" b w) as Hadd. cbv zeta in Hadd.
  destruct (run h (Bag.AddTagfile "bagit.txt" b) w) as [[b1 [err|]] w1 tr1];
    run_simpl; [done|].
  simpl in Hadd. rewrite Hadd by done. unfold Bag.TagFile.
  cbn [Bag.tagfiles Bag.with_tagfiles]. rewrite lookup_insert_eq. run_simpl.
  intros [= <-]. done.
Qed.

Lemma NewBag_spec location name hashNames createTagManifests b :
  ∀ w, (result (run h (Bag.NewBag location name hashNames createTagManifests) w)).1 = Some b →
  (result (run h (Bag.NewBag location name hashNames createTagManifests) w)).2 = None
  ∧ Bag.pathToFile b = filepath.Join location name
  ∧ Bag.tagfiles b
    = {["bagit.txt" :=
          TagFile.mk (filepath.Join (filepath.Join location name) "bagit.txt") bagit_fields]}.
Proof.
  intros w. unfold Bag.NewBag. run_simpl.
  destruct (h (os_Mkdir _) w) as [[err|] w1]; run_simpl; [done|].
  rewrite run_bind.
  destruct (run h (Bag.NewBag_manifests _ _ _ _) w1) as [[ms|err] w2 tr2]; run_simpl; [|done].
  destruct (h (os_Mkdir _) w2) as [[err|] w3]; run_simpl; [done|].
  destruct (h (NewPayload _) w3) as [[err|] w4]; run_simpl; [done|].
  rewrite run_bind.
  set (bag := Bag.mk _ _ ms ∅).
  pose proof (createBagItFile_spec bag w4) as Hcreate. cbv zeta in Hcreate.
  destruct (run h (Bag.createBagItFile bag) w4) as [[bag1 [tf|err]] w5 tr5];
    run_simpl; [|done].
  destruct (Hcreate tf eq_refl) as [Htf Hbag1]. clear Hcreate.
  simpl in Hbag1. subst tf bag1.
  rewrite run_bind. cbn [Bag.tagfiles Bag.with_tagfiles].
  rewrite bagit_registered.
  match goal with
  | |- context [Bag.Save ?tfs ?bag2] =>
      destruct (Save_spec h tfs bag2 w5) as (_ & _ & Htfs & Hpath);
      destruct (run h (Bag.Save tfs bag2) w5) as [[bag3 errors] w6 tr6]
  end.
  run_simpl. simpl in Htfs, Hpath. cbn [err_of].
  rewrite bool_decide_false by (by intros []). cbn [andb]. run_simpl.
  intros [= <-]. rewrite Htfs, Hpath. done.
Qed.

Lemma ends_in_setup_failure_cons e tr err :
  ends_in_setup_failure tr err → ends_in_setup_failure (e :: tr) err.
Proof. intros (pre & e' & -> & He'). by exists (e :: pre), e'. Qed.

Lemma ends_in_setup_failure_app tr0 tr err :
  ends_in_setup_failure tr err → ends_in_setup_failure (tr0 ++ tr) err.
Proof.
  intros Hends. induction tr0 as [|e tr0 IH]; [done|].
  simpl. by apply ends_in_setup_failure_cons.
Qed.

Lemma NewBag_manifests_failure bagPath hashNames createTagManifests ms w err :
  let o := run h (Bag.NewBag_manifests bagPath hashNames createTagManifests ms) w in
  result o = inr err → ends_in_setup_failure (trace o) err.
Proof.
  revert ms w. induction hashNames as [|hashName hashNames IH]; intros ms w; cbv zeta;
    [done|].
  cbn [Bag.NewBag_manifests]. run_simpl.
  destruct (h (NewManifest _ _) w) as [[manifest|err1] w1]; run_simpl.
  - destruct createTagManifests; run_simpl.
    + destruct (h (NewManifest _ _) w1) as [[tagmanifest|err2] w2]; run_simpl.
      * intros Hres. do 2 apply ends_in_setup_failure_cons. by apply IH.
      * intros [= <-]. by eexists [_], _.
    + intros Hres. apply ends_in_setup_failure_cons. by apply IH.
  - intros [= <-]. by eexists [], _.
Qed.

Lemma AddTagfile_failure name b w err :
  let o := run h (Bag.AddTagfile name b) w in
  (result o).2 = Some err → ends_in_setup_failure (trace o) err.
Proof.
  cbv zeta. unfold Bag.AddTagfile. run_simpl.
  destruct (h (os_MkdirAll _) w) as [[err1|] w1]; run_simpl;
    [intros [= <-]; by eexists [], _|].
  destruct (h (NewTagFile _) w1) as [[err2|] w2]; run_simpl;
    [intros [= <-]; by eexists [_], _|].
  destruct (h (TagFile_Create _) w2) as [[err3|] w3]; run_simpl; [|done].
  intros [= <-]. by eexists [_; _], _.
Qed.

Lemma createBagItFile_failure b w err :
  let o := run h (Bag.createBagItFile b) w in
  (result o).2 = inr err → ends_in_setup_failure (trace o) err.
Proof.
  cbv zeta. unfold Bag.createBagItFile. rewrite run_bind.
  pose proof (AddTagfile_spec "bagit.txt" b w) as Hadd.
  pose proof (AddTagfile_failure "bagit.txt" b w) as Hfail. cbv zeta in Hadd, Hfail.
  destruct (run h (Bag.AddTagfile "bagit.txt" b) w) as [[b1 [err1|]] w1 tr1]; run_simpl.
  - intros [= <-]. rewrite app_nil_r. by apply Hfail.
  - simpl in Hadd. rewrite Hadd by done. unfold Bag.TagFile.
    cbn [Bag.tagfiles Bag.with_tagfiles]. rewrite lookup_insert_eq. by run_simpl.
Qed.

(** Whenever [NewBag] returns an error, it is the error of the call of
    the setup it has just made: an error of [Save] is never returned. *)
Lemma NewBag_error_is_setup_failure location name hashNames createTagManifests w err :
  let o := run h (Bag.NewBag location name hashNames createTagManifests) w in
  (result o).2 = Some err → ends_in_setup_failure (trace o) err.
Proof.
  cbv zeta. unfold Bag.NewBag. run_simpl.
  destruct (h (os_Mkdir _) w) as [[err1|] w1]; run_simpl;
    [intros [= <-]; by eexists [], _|].
  rewrite run_bind.
  pose proof (NewBag_manifests_failure (filepath.Join location name) hashNames
                createTagManifests [] w1) as Hms. cbv zeta in Hms.
  destruct (run h (Bag.NewBag_manifests _ _ _ _) w1) as [[ms|err2] w2 tr2]; run_simpl.
  2:{ intros [= <-]. rewrite app_nil_r. apply ends_in_setup_failure_cons. by apply Hms. }
  clear Hms. intros Hres. apply ends_in_setup_failure_cons, ends_in_setup_failure_app.
  revert Hres.
  destruct (h (os_Mkdir _) w2) as [[err3|] w3]; run_simpl;
    [intros [= <-]; by eexists [], _|].
  destruct (h (NewPayload _) w3) as [[err4|] w4]; run_simpl;
    [intros [= <-]; by eexists [_], _|].
  intros Hres. do 2 apply ends_in_setup_failure_cons. revert Hres.
  rewrite run_bind. set (bag := Bag.mk _ _ ms ∅).
  pose proof (createBagItFile_failure bag w4) as Hcreate. cbv zeta in Hcreate.
  destruct (run h (Bag.createBagItFile bag) w4) as [[bag1 [tf|err5]] w5 tr5]; run_simpl.
  2:{ intros [= <-]. rewrite app_nil_r. by apply Hcreate. }
  rewrite run_bind.
  match goal with
  | |- context [Bag.Save ?tfs ?bag2] =>
      destruct (run h (Bag.Save tfs bag2) w5) as [[bag3 errors] w6 tr6]
  end.
  run_simpl. cbn [err_of]. rewrite bool_decide_false by (by intros []).
  cbn [andb]. by run_simpl.
Qed.

End NewBag.

(** C9. When [NewBag] returns a bag, the tag files of the bag are
    [bagit.txt] alone, and its fields are [BagIt-Version: 0.97] and
    [Tag-File-Character-Encoding: UTF-8], in this order and no others. *)
Theorem NewBag_bagit_fields {W} (h : handler W) (w : W)
    (location name : string) (hashNames : list string) (createTagManifests : bool)
    (b : Bag.t) :
  (result (run h (Bag.NewBag location name hashNames createTagManifests) w)).1 = Some b →
  Bag.tagfiles b
  = {["bagit.txt" :=
        TagFile.mk (filepath.Join (filepath.Join location name) "bagit.txt")
          [TagField.NewTagField "BagIt-Version" "0.97";
           TagField.NewTagField "Tag-File-Character-Encoding" "UTF-8"]]}.
Proof. intros Hb. by apply (NewBag_spec h) in Hb as (_ & _ & ->). Qed.

Lemma NewBag_bagit_fields_witness :
  ∃ b, (result (play all_ok (Bag.NewBag "/tmp" "bag1" ["md5"; "sha256"] true))).1 = Some b
       ∧ TagFile.Data <$> Bag.tagfiles b !! "bagit.txt"
         = Some [TagField.NewTagField "BagIt-Version" "0.97";
                 TagField.NewTagField "Tag-File-Character-Encoding" "UTF-8"].
Proof.
  eexists. split; [vm_compute; reflexivity|].
  rewrite (NewBag_bagit_fields (scripted all_ok) tt "/tmp" "bag1" ["md5"; "sha256"] true _)
    by (vm_compute; reflexivity).
  by rewrite lookup_singleton_eq.
Defined.

(** ** Listing, tracking and orphans *)

(** C6 (the code departs from the claim). In a bag with the payload
    files [data/a.txt] and [data/sub/b.txt], [ListFiles] of either revision
    lists both, leaving out only the directories under [data]; and
    [Orphans] reports both. *)
Theorem ListFiles_lists_payload_files :
  result (play (walking payload_walk) (Bag.ListFiles two_tag_bag))
  = (["bagit.txt"; "data/a.txt"; "data/sub/b.txt"; "manifest-md5.txt"], None)
  ∧ result (play (walking payload_walk) (SingleManifestBag.ListFiles single_bag))
    = (["bagit.txt"; "data/a.txt"; "data/sub/b.txt"; "manifest-md5.txt"], None)
  ∧ result (play (walking payload_walk) (SingleManifestBag.Orphans ["bagit.txt"] single_bag))
    = ["data/a.txt"; "data/sub/b.txt"; "manifest-md5.txt"].
Proof. split_and!; vm_compute; reflexivity. Qed.

(** [visit] lists every entry that is not a directory, under the payload
    directory or not. *)
Lemma visit_lists_every_file b files entry fp :
  wErr entry = None → wIsDir entry = false →
  filepath.Rel (Bag.Path b) (wPath entry) = inl fp → fp ≠ "." →
  Bag.visit b files entry = (files ++ [fp], None).
Proof.
  unfold Bag.visit. intros -> -> -> Hfp. simpl. by rewrite bool_decide_true.
Qed.

(** [TrackedFiles] adds nothing for the manifest whenever its path can
    be made relative to the bag. *)
Lemma TrackedFiles_without_manifest names b mPath :
  filepath.Rel (SingleManifestBag.Path b) (Manifest.Name (SingleManifestBag.Manifest b))
  = inl mPath →
  SingleManifestBag.TrackedFiles names b = names.
Proof. unfold SingleManifestBag.TrackedFiles. by intros ->. Qed.

(** C7 (the code departs from the claim). The manifest of [single_bag]
    is [manifest-md5.txt] in the bag; [TrackedFiles] returns the name of the
    tag file alone. *)
Theorem TrackedFiles_misses_manifest :
  SingleManifestBag.range_keys (SingleManifestBag.tagfiles single_bag) ["bagit.txt"]
  ∧ filepath.Rel (SingleManifestBag.Path single_bag)
      (Manifest.Name (SingleManifestBag.Manifest single_bag)) = inl "manifest-md5.txt"
  ∧ SingleManifestBag.TrackedFiles ["bagit.txt"] single_bag = ["bagit.txt"].
Proof. split_and!; vm_compute; reflexivity. Qed.

(** C10. When the walk of [ListFiles] ends in an error, [Orphans]
    returns the empty list, whatever the tag files and the manifest are. *)
Theorem Orphans_ignores_walk_error {W} (h : handler W) (w : W)
    (names : list string) (b : SingleManifestBag.t) :
  (result (run h (SingleManifestBag.ListFiles b) w)).2 ≠ None →
  (result (run h (SingleManifestBag.ListFiles b) w)).1 = []
  ∧ result (run h (SingleManifestBag.Orphans names b) w) = [].
Proof.
  unfold SingleManifestBag.Orphans. rewrite run_bind.
  unfold SingleManifestBag.ListFiles. run_simpl.
  destruct (h (filepath_Walk _) w) as [entries w1]. run_simpl.
  destruct (SingleManifestBag.walk b entries []) as [files [err|]]; run_simpl; done.
Qed.

Lemma Orphans_ignores_walk_error_witness :
  (result (play (walking unreadable_walk) (SingleManifestBag.ListFiles single_bag))).2
  = Some "open /bags/b/data: permission denied"
  ∧ result (play (walking unreadable_walk)
              (SingleManifestBag.Orphans ["bagit.txt"] single_bag)) = [].
Proof.
  split; [vm_compute; reflexivity|].
  apply (Orphans_ignores_walk_error (scripted (walking unreadable_walk)) tt
           ["bagit.txt"] single_bag).
  vm_compute. discriminate.
Defined.

(** ** Opening a bag *)

Section ReadBag.
Context {W : Type} (h : handler W).

Lemma findManifests_files_none b bagFiles ms w :
  (∀ fName, fName ∈ bagFiles → manifest_name (Bag.pathToFile b) fName = false) →
  run h (Bag.findManifests_files b bagFiles ms) w = Outcome (ms, None) w [].
Proof.
  induction bagFiles as [|fName bagFiles IH]; intros Hnone; [done|].
  cbn [Bag.findManifests_files].
  pose proof (Hnone fName ltac:(apply elem_of_cons; by left)) as Hf.
  unfold manifest_name in Hf. rewrite Hf. apply IH.
  intros f Hin. apply Hnone, elem_of_cons. by right.
Qed.









End ReadBag.







(** ** Manifests and tag files of a bag *)

Lemma manifests_of_type_is_Some manifestType pre ms i :
  i ∈ Bag.manifests_of_type manifestType (length pre) ms → is_Some ((pre ++ ms) !! i).
Proof.
  revert pre. induction ms as [|m ms IH]; intros pre; [by intros ?%elem_of_nil|].
  specialize (IH (pre ++ [m])). rewrite length_app, Nat.add_1_r, <- app_assoc in IH.
  simpl in *. destruct (decide (Manifest.Type_ m = manifestType)); [|done].
  intros [->|Hin]%elem_of_cons; [|by apply IH].
  rewrite list_lookup_middle by done. by eexists.
Qed.

(** X1. [GetManifests] returns the pointers to exactly the manifests of
    the bag that have the type asked for. *)
Theorem GetManifests_spec (manifestType : ManifestType) (b : Bag.t) (i : nat) :
  i ∈ Bag.GetManifests manifestType b
  ↔ ∃ m, Bag.Manifests b !! i = Some m ∧ Manifest.Type_ m = manifestType.
Proof.
  unfold Bag.GetManifests. split.
  - intros Hin.
    destruct (manifests_of_type_is_Some manifestType [] (Bag.Manifests b) i Hin) as [m Hm].
    exists m. split; [done|].
    pose proof (manifests_of_type_lookup manifestType [] (Bag.Manifests b)) as Hall.
    rewrite Forall_forall in Hall. by apply (Hall i Hin).
  - intros (m & Hm & Ht).
    apply (elem_of_manifests_of_type manifestType [] (Bag.Manifests b) i m);
      [done|simpl; lia|done].
Qed.

Lemma first_manifest_spec manifestType algorithm pre ms :
  match Bag.first_manifest manifestType algorithm (length pre) ms with
  | Some i =>
      length pre ≤ i
      ∧ (∃ m, (pre ++ ms) !! i = Some m ∧ Manifest.Type_ m = manifestType
              ∧ Manifest.Algorithm m = algorithm)
      ∧ ∀ j m, length pre ≤ j → j < i → (pre ++ ms) !! j = Some m →
               ¬ (Manifest.Type_ m = manifestType ∧ Manifest.Algorithm m = algorithm)
  | None =>
      ∀ m, m ∈ ms → ¬ (Manifest.Type_ m = manifestType ∧ Manifest.Algorithm m = algorithm)
  end.
Proof.
  revert pre. induction ms as [|m0 ms IH]; intros pre; [by intros m ?%elem_of_nil|].
  specialize (IH (pre ++ [m0])). rewrite length_app, Nat.add_1_r, <- app_assoc in IH.
  simpl in *. destruct (bool_decide (Manifest.Type_ m0 = manifestType)
                        && bool_decide (Manifest.Algorithm m0 = algorithm)) eqn:Hm0.
  - apply andb_prop in Hm0 as [Ht%bool_decide_eq_true Ha%bool_decide_eq_true].
    split_and!; [done| |intros; lia].
    exists m0. by rewrite list_lookup_middle.
  - assert (¬ (Manifest.Type_ m0 = manifestType ∧ Manifest.Algorithm m0 = algorithm))
      as Hno.
    { intros [Ht Ha]. by rewrite !bool_decide_true in Hm0. }
    destruct (Bag.first_manifest _ _ _ ms) as [i|].
    + destruct IH as (Hle & Hm & Hfirst). split_and!; [lia|done|].
      intros j m Hj Hji Hlook. destruct (decide (j = length pre)) as [->|Hne].
      * rewrite list_lookup_middle in Hlook by done. by injection Hlook as <-.
      * apply (Hfirst j m); [lia|done..].
    + intros m [->|Hin]%elem_of_cons; [done|]. by apply IH.
Qed.

(** X2. [GetManifest] returns the pointer to the first manifest of the
    bag with the type and the algorithm asked for, and nil exactly when the
    bag has no such manifest. *)
Theorem GetManifest_first (manifestType : ManifestType) (algorithm : string) (b : Bag.t) :
  match Bag.GetManifest manifestType algorithm b with
  | Some i =>
      (∃ m, Bag.Manifests b !! i = Some m ∧ Manifest.Type_ m = manifestType
            ∧ Manifest.Algorithm m = algorithm)
      ∧ ∀ j m, j < i → Bag.Manifests b !! j = Some m →
               ¬ (Manifest.Type_ m = manifestType ∧ Manifest.Algorithm m = algorithm)
  | None =>
      ∀ m, m ∈ Bag.Manifests b →
           ¬ (Manifest.Type_ m = manifestType ∧ Manifest.Algorithm m = algorithm)
  end.
Proof.
  unfold Bag.GetManifest.
  pose proof (first_manifest_spec manifestType algorithm [] (Bag.Manifests b)) as H.
  simpl in H. destruct (Bag.first_manifest _ _ 0 _) as [i|]; [|done].
  destruct H as (_ & Hm & Hfirst). split; [done|].
  intros j m Hji. apply Hfirst; [lia|done].
Qed.

Lemma ListTagFiles_fill_spec keys i names :
  i + length keys = length names →
  Bag.ListTagFiles_fill keys i names = Some (take i names ++ keys).
Proof.
  revert i names. induction keys as [|k keys IH]; intros i names Hlen; simpl in *.
  - rewrite app_nil_r, take_ge by lia. done.
  - rewrite bool_decide_true by lia. rewrite IH by (rewrite length_insert; lia).
    rewrite (take_S_r _ _ k) by (apply list_lookup_insert_eq; lia).
    by rewrite take_insert_ge, <- app_assoc by lia.
Qed.

(** X3. Whatever the order in which [range] yields the keys of the tag
    files, [ListTagFiles] fills every slot of its slice and returns the
    registered names in that order, each once. *)
Theorem ListTagFiles_names (keys : list string) (b : Bag.t) :
  SingleManifestBag.range_keys (Bag.tagfiles b) keys →
  Bag.ListTagFiles keys b = Some keys.
Proof.
  unfold SingleManifestBag.range_keys, Bag.ListTagFiles. intros Hkeys.
  rewrite ListTagFiles_fill_spec; [done|].
  by rewrite length_replicate, Hkeys, length_fmap, length_map_to_list.
Qed.

Lemma ListTagFiles_names_witness :
  Bag.ListTagFiles ["bag-info.txt"; "bagit.txt"] two_tag_bag
  = Some ["bag-info.txt"; "bagit.txt"].
Proof.
  apply (ListTagFiles_names ["bag-info.txt"; "bagit.txt"] two_tag_bag).
  unfold SingleManifestBag.range_keys. vm_compute.
  apply Permutation_swap || reflexivity.
Defined.

(** X4. When [AddTagfile] returns no error, the tag file is registered
    under the name given, empty and at the path of the name under the bag;
    a tag file registered under this name before is replaced, and the other
    tag files, the manifests, the payload and the path of the bag are as
    they were. *)
Theorem AddTagfile_registers {W} (h : handler W) (w : W) (name : string) (b : Bag.t) :
  let b' := (result (run h (Bag.AddTagfile name b) w)).1 in
  (result (run h (Bag.AddTagfile name b) w)).2 = None →
  Bag.TagFile name b' = inl (TagFile.mk (filepath.Join (Bag.Path b) name) [])
  ∧ (∀ other, other ≠ name → Bag.TagFile other b' = Bag.TagFile other b)
  ∧ Bag.Manifests b' = Bag.Manifests b
  ∧ Bag.payload b' = Bag.payload b
  ∧ Bag.Path b' = Bag.Path b.
Proof.
  cbv zeta. intros Hok. rewrite (AddTagfile_spec h name b w Hok).
  unfold Bag.TagFile. cbn [Bag.tagfiles Bag.with_tagfiles]. split_and!; [|
    intros other Hne|done..].
  - by rewrite lookup_insert_eq.
  - by rewrite lookup_insert_ne.
Qed.

Lemma AddTagfile_registers_witness :
  Bag.BagInfo (result (play all_ok (Bag.AddTagfile "bag-info.txt" two_tag_bag))).1
  = inl (TagFile.mk "/bags/b/bag-info.txt" []).
Proof.
  unfold Bag.BagInfo, play.
  destruct (AddTagfile_registers (scripted all_ok) tt "bag-info.txt" two_tag_bag)
    as (-> & _); [vm_compute; reflexivity|].
  vm_compute. reflexivity.
Defined.

(** X5. When [AddTagfile] returns an error, either the tag file could not
    be written, and it is registered all the same, or no write of the tag
    file was tried and the bag is as it was. *)
Theorem AddTagfile_error {W} (h : handler W) (w : W) (name : string) (b : Bag.t)
    (err : error) :
  let o := run h (Bag.AddTagfile name b) w in
  let tf := TagFile.mk (filepath.Join (Bag.Path b) name) [] in
  (result o).2 = Some err →
  (last (trace o) = Some (Ev (TagFile_Create tf) (Some err))
   ∧ (result o).1 = Bag.with_tagfiles (<[name := tf]> (Bag.tagfiles b)) b)
  ∨ ((∀ c, c ∈ calls o → is_TagFile_Create c = false) ∧ (result o).1 = b).
Proof.
  cbv zeta. unfold Bag.AddTagfile, calls. run_simpl.
  destruct (h (os_MkdirAll _) w) as [[err1|] w1]; run_simpl.
  { intros _. right. split; [|done]. by intros c ->%list_elem_of_singleton. }
  destruct (h (NewTagFile _) w1) as [[err2|] w2]; run_simpl.
  { intros _. right. split; [|done].
    intros c [->|Hc]%elem_of_cons; [done|].
    by apply list_elem_of_singleton in Hc as ->. }
  destruct (h (TagFile_Create _) w2) as [[err3|] w3]; run_simpl; [|done].
  intros [= <-]. by left.
Qed.

Lemma AddTagfile_error_witness :
  Bag.TagFile "notes.txt"
    (result (run (disk ["/bags/b/notes.txt"]) (Bag.AddTagfile "notes.txt" two_tag_bag) ∅)).1
  = inl (TagFile.mk "/bags/b/notes.txt" []).
Proof.
  destruct (AddTagfile_error (disk ["/bags/b/notes.txt"]) ∅ "notes.txt" two_tag_bag
              "open /bags/b/notes.txt: permission denied")
    as [[_ ->]|[Hnone _]].
  - vm_compute. reflexivity.
  - vm_compute. reflexivity.
  - specialize (Hnone (TagFile_Create (TagFile.mk "/bags/b/notes.txt" []))).
    discriminate Hnone. vm_compute. do 2 right. left.
Defined.

(** X6. The bag that [NewBag] returns has no [bag-info.txt]: [BagInfo]
    fails on it, and so does [TagFile] for every name but [bagit.txt]. *)
Theorem NewBag_has_no_BagInfo {W} (h : handler W) (w : W)
    (location name : string) (hashNames : list string) (createTagManifests : bool)
    (b : Bag.t) :
  (result (run h (Bag.NewBag location name hashNames createTagManifests) w)).1 = Some b →
  Bag.BagInfo b = inr "Unable to find tagfile bag-info.txt"
  ∧ ∀ other, other ≠ "bagit.txt" →
             Bag.TagFile other b = inr ("Unable to find tagfile " +:+ other).
Proof.
  intros Hb. apply (NewBag_spec h) in Hb as (_ & _ & Htfs).
  unfold Bag.BagInfo, Bag.TagFile. rewrite Htfs. split.
  - by rewrite lookup_singleton_ne.
  - intros other Hne. by rewrite lookup_singleton_ne.
Qed.

Lemma NewBag_has_no_BagInfo_witness :
  ∃ b, (result (play all_ok (Bag.NewBag "/tmp" "bag1" ["sha256"] false))).1 = Some b
       ∧ Bag.BagInfo b = inr "Unable to find tagfile bag-info.txt".
Proof.
  eexists. split; [vm_compute; reflexivity|].
  apply (NewBag_has_no_BagInfo (scripted all_ok) tt "/tmp" "bag1" ["sha256"] false).
  vm_compute. reflexivity.
Defined.

(** ** The errors of a save *)

Section SaveErrors.
Context {W : Type} (h : handler W).

Lemma ends_in_checksum_error_cons e tr msg :
  checksum_error e = None →
  ends_in_checksum_error tr msg → ends_in_checksum_error (e :: tr) msg.
Proof.
  intros He (pre & e' & -> & Hpre & He'). exists (e :: pre), e'.
  split_and!; [done| |done]. by constructor.
Qed.

Lemma ends_in_checksum_error_app tr0 tr msg :
  Forall (λ e, checksum_error e = None) tr0 →
  ends_in_checksum_error tr msg → ends_in_checksum_error (tr0 ++ tr) msg.
Proof.
  induction 1 as [|e tr0 He _ IH]; intros Hends; [done|].
  simpl. apply ends_in_checksum_error_cons; auto.
Qed.

Lemma Save_checksums_errors tf indexes ms w :
  let o := run h (Bag.Save_checksums tf indexes ms) w in
  ((result o).2 = None
   ∧ Forall (λ e, checksum_error e = None ∧ write_error e = None) (trace o))
  ∨ (∃ msg, (result o).2 = Some [msg] ∧ ends_in_checksum_error (trace o) msg).
Proof.
  revert ms w. induction indexes as [|i indexes IH]; intros ms w; cbv zeta.
  { left. split; [done|constructor]. }
  rewrite Save_checksums_cons. destruct (ms !! i) as [manifest|]; [|apply IH].
  run_simpl. destruct (h _ w) as [[checksum|err] w'] eqn:Hh; run_simpl.
  - destruct (IH (alter (Manifest.setData (TagFile.Name tf) checksum) i ms) w')
      as [[Hnone Hclean]|(msg & Hsome & Hends)].
    + left. split; [done|]. by constructor.
    + right. exists msg. split; [done|]. by apply ends_in_checksum_error_cons.
  - right. eexists. split; [done|]. eexists [], _. split_and!; [done|constructor|done].
Qed.

Lemma Save_tagfiles_errors tagManifests tfs ms errs w :
  let o := run h (Bag.Save_tagfiles tagManifests tfs ms errs) w in
  ((result o).2 = None
   ∧ Forall (λ e, checksum_error e = None) (trace o)
   ∧ (result o).1.2 = errs ++ omap write_error (trace o))
  ∨ (∃ msg, (result o).2 = Some [msg] ∧ ends_in_checksum_error (trace o) msg).
Proof.
  revert ms errs w. induction tfs as [|tf tfs IH]; intros ms errs w; cbv zeta.
  { left. simpl. split_and!; [done|constructor|by rewrite app_nil_r]. }
  cbn [Bag.Save_tagfiles]. run_simpl.
  destruct (h (os_MkdirAll _) w) as [e1 w1]. run_simpl.
  destruct (h (TagFile_Create tf) w1) as [e2 w2]. run_simpl.
  rewrite run_bind. run_simpl.
  pose proof (Save_checksums_errors tf tagManifests ms w2) as Hsums. cbv zeta in Hsums.
  destruct (run h (Bag.Save_checksums tf tagManifests ms) w2)
    as [[ms1 returned] w3 tr3]. simpl in Hsums.
  destruct Hsums as [[-> Hclean]|(msg & -> & Hends)]; run_simpl.
  - specialize (IH ms1 ((errs ++ errs_of e1) ++ errs_of e2) w3). cbv zeta in IH.
    destruct (run h (Bag.Save_tagfiles tagManifests tfs ms1 _) w3)
      as [[[ms2 errs2] returned2] w4 tr4]. simpl in IH |- *.
    assert (omap write_error tr3 = []) as Hnil.
    { clear -Hclean. induction Hclean as [|e tr [_ He] _ IHc]; [done|].
      simpl. by rewrite He. }
    assert (Forall (λ e, checksum_error e = None) tr3) as Hclean3.
    { eapply Forall_impl; [done|]. by intros e []. }
    destruct IH as [(-> & Hclean4 & ->)|(msg & -> & Hends)].
    + left. split_and!; [done| |].
      * do 2 (constructor; [done|]). by apply Forall_app.
      * rewrite omap_app, Hnil. destruct e1, e2; simpl; by rewrite <- ?app_assoc.
    + right. exists msg. split; [done|].
      do 2 (apply ends_in_checksum_error_cons; [done|]).
      by apply ends_in_checksum_error_app.
  - right. exists msg. split; [done|]. rewrite app_nil_r.
    by do 2 (apply ends_in_checksum_error_cons; [done|]).
Qed.

Lemma Save_manifests_errors ms errs w :
  let o := run h (Bag.Save_manifests ms errs) w in
  Forall (λ e, checksum_error e = None) (trace o)
  ∧ result o = errs ++ omap write_error (trace o).
Proof.
  revert errs w. induction ms as [|m ms IH]; intros errs w; cbv zeta.
  { simpl. split; [constructor|by rewrite app_nil_r]. }
  cbn [Bag.Save_manifests]. run_simpl. destruct (h (Manifest_Create m) w) as [e w1].
  run_simpl. destruct (IH (errs ++ errs_of e) w1) as [Hclean ->].
  split; [by constructor|]. destruct e; simpl; by rewrite <- ?app_assoc, ?app_nil_r.
Qed.

Lemma Save_errors tfs b w :
  let o := run h (Bag.Save tfs b) w in
  (Forall (λ e, checksum_error e = None) (trace o)
   ∧ (result o).2 = omap write_error (trace o))
  ∨ (∃ msg, (result o).2 = [msg] ∧ ends_in_checksum_error (trace o) msg).
Proof.
  cbv zeta. unfold Bag.Save. rewrite run_bind.
  pose proof (Save_tagfiles_errors (Bag.GetManifests TagManifest b) tfs
                (Bag.Manifests b) [] w) as Htfs. cbv zeta in Htfs.
  destruct (run h (Bag.Save_tagfiles _ tfs _ []) w) as [[[ms errs] returned] w1 tr1].
  simpl in Htfs. run_simpl.
  destruct Htfs as [(-> & Hclean & ->)|(msg & -> & Hends)].
  - rewrite run_bind. run_simpl. cbn [Bag.Manifests Bag.with_Manifests].
    destruct (Save_manifests_errors ms (omap write_error tr1) w1) as [Hclean2 ->].
    left. rewrite !app_nil_r. split; [by apply Forall_app|]. by rewrite omap_app.
  - right. exists msg. run_simpl. by rewrite app_nil_r.
Qed.

Lemma Save_result_bag tfs b w :
  ∃ ms, (result (run h (Bag.Save tfs b) w)).1 = Bag.with_Manifests ms b.
Proof.
  unfold Bag.Save. rewrite run_bind.
  destruct (run h (Bag.Save_tagfiles _ tfs _ []) w) as [[[ms errs] returned] w1 tr1].
  run_simpl. exists ms. destruct returned; run_simpl; [done|].
  rewrite run_bind. by run_simpl.
Qed.

End SaveErrors.

Lemma changed_by_payload keys m m' :
  changed_by keys m m' → Manifest.Type_ m ≠ TagManifest → m' = m.
Proof.
  intros [Hhead Hdata] Hty. destruct m as [n a t d], m' as [n' a' t' d'].
  injection Hhead as -> -> ->. f_equal. apply map_eq. intros key.
  destruct (decide (d' !! key = d !! key)) as [|Hne]; [done|].
  by destruct (Hdata key Hne).
Qed.

(** X7. When every checksum can be computed, [Save] returns the errors
    of the directories, tag files and manifests it could not write, all of
    them and in the order of the writes. *)
Theorem Save_returns_write_errors {W} (h : handler W) (w : W)
    (tfs : list TagFile.t) (b : Bag.t) :
  let o := run h (Bag.Save tfs b) w in
  (∀ e, e ∈ trace o → failed_checksum e = false) →
  (result o).2 = omap write_error (trace o).
Proof.
  cbv zeta. intros Hok.
  destruct (Save_errors h tfs b w) as [[_ Hres]|(msg & _ & pre & e & Htr & _ & He)];
    [done|].
  specialize (Hok e). rewrite Htr in Hok.
  assert (failed_checksum e = false) as Hf.
  { apply Hok, elem_of_app. right. by left. }
  destruct e as [[] r]; try done. by destruct r.
Qed.

Lemma Save_returns_write_errors_witness :
  (result (run (disk ["/bags/b/tagmanifest-md5.txt"; "/bags/b/manifest-md5.txt"])
             (Bag.Save [bagit_txt; bag_info_txt] two_tag_bag) ∅)).2
  = ["open /bags/b/manifest-md5.txt: permission denied";
     "open /bags/b/tagmanifest-md5.txt: permission denied"].
Proof.
  rewrite (Save_returns_write_errors
             (disk ["/bags/b/tagmanifest-md5.txt"; "/bags/b/manifest-md5.txt"]) ∅
             [bagit_txt; bag_info_txt] two_tag_bag).
  - vm_compute. reflexivity.
  - intros e He. vm_compute in He.
    repeat (apply elem_of_cons in He as [->|He]; [reflexivity|]).
    by apply elem_of_nil in He.
Defined.

(** X8. A checksum that cannot be computed ends [Save]: it is the last
    call of the run, and [Save] returns one error, the one built for this
    checksum, whatever was collected before. *)
Theorem Save_checksum_error_alone {W} (h : handler W) (w : W)
    (tfs : list TagFile.t) (b : Bag.t) (e : event) (msg : error) :
  let o := run h (Bag.Save tfs b) w in
  e ∈ trace o → checksum_error e = Some msg →
  last (trace o) = Some e ∧ (result o).2 = [msg].
Proof.
  cbv zeta. intros Hin He.
  destruct (Save_errors h tfs b w)
    as [[Hclean _]|(msg' & Hres & pre & e' & Htr & Hpre & He')].
  - rewrite Forall_forall in Hclean. rewrite (Hclean e Hin) in He. done.
  - rewrite Htr in Hin |- *. rewrite last_snoc.
    apply elem_of_app in Hin as [Hin|Hin%list_elem_of_singleton].
    + rewrite Forall_forall in Hpre. rewrite (Hpre e Hin) in He. done.
    + subst e'. rewrite He in He'. injection He' as <-. done.
Qed.

Lemma Save_checksum_error_alone_witness :
  (result (run (disk ["/bags/b/bag-info.txt"])
             (Bag.Save [bagit_txt; bag_info_txt] two_tag_bag) ∅)).2
  = ["Error calculating md5 checksum for file /bags/b/bag-info.txt: open /bags/b/bag-info.txt: no such file or directory"].
Proof.
  apply (Save_checksum_error_alone (disk ["/bags/b/bag-info.txt"]) ∅
           [bagit_txt; bag_info_txt] two_tag_bag
           (Ev (bagutil_FileChecksum "/bags/b/bag-info.txt" "md5")
               (inr "open /bags/b/bag-info.txt: no such file or directory"))).
  - vm_compute. do 5 right. left.
  - vm_compute. reflexivity.
Defined.

(** X9. [Save] changes nothing of the bag but entries of tag manifests:
    the path, the payload and the tag files are as they were, there are as
    many manifests, and every payload manifest is as it was. *)
Theorem Save_leaves_payload_manifests {W} (h : handler W) (w : W)
    (tfs : list TagFile.t) (b : Bag.t) :
  let b' := (result (run h (Bag.Save tfs b) w)).1 in
  Bag.pathToFile b' = Bag.pathToFile b
  ∧ Bag.payload b' = Bag.payload b
  ∧ Bag.tagfiles b' = Bag.tagfiles b
  ∧ length (Bag.Manifests b') = length (Bag.Manifests b)
  ∧ ∀ i m, Bag.Manifests b !! i = Some m → Manifest.Type_ m = PayloadManifest →
           Bag.Manifests b' !! i = Some m.
Proof.
  cbv zeta. destruct (Save_spec h tfs b w) as (_ & Hkeep & Htfs & Hpath).
  destruct (Save_result_bag h tfs b w) as [ms Hbag]. split_and!; [done| |done| |].
  - by rewrite Hbag.
  - symmetry. by eapply Forall2_length.
  - intros i m Hm Hty.
    destruct (Forall2_lookup_l _ _ _ _ _ Hkeep Hm) as (m' & Hm' & Hchanged).
    rewrite Hm'. f_equal. eapply changed_by_payload; [done|]. by rewrite Hty.
Qed.

Lemma tag_files_calls_without_tag_manifests ms tfs :
  (∀ m, m ∈ ms → Manifest.Type_ m = PayloadManifest) →
  tag_files_calls ms tfs = tag_file_writes tfs.
Proof.
  intros Hall. unfold tag_files_calls, tag_file_writes. f_equal.
  apply list_fmap_ext. intros _ tf _. unfold tag_file_calls, tag_algorithms.
  assert (filter (λ m, Manifest.Type_ m = TagManifest) ms = []) as ->.
  { induction ms as [|m ms IH]; [done|]. rewrite filter_cons_False.
    - apply IH. intros m' Hm'. apply Hall. by right.
    - rewrite (Hall m) by (by left). done. }
  by rewrite app_nil_r.
Qed.

Lemma tag_file_writes_not_checksum tfs c :
  c ∈ tag_file_writes tfs → is_FileChecksum c = false.
Proof.
  unfold tag_file_writes. induction tfs as [|tf tfs IH]; [by intros ?%elem_of_nil|].
  rewrite fmap_cons. cbn [concat]. intros [Hc|Hc]%elem_of_app; [|by apply IH].
  apply elem_of_cons in Hc as [->|Hc]; [done|].
  by apply list_elem_of_singleton in Hc as ->.
Qed.

Lemma failed_checksum_is_FileChecksum e :
  failed_checksum e = true → is_FileChecksum (call_of e) = true.
Proof. by destruct e as [[] r]. Qed.

(** X10. In a bag without tag manifest, [Save] computes no checksum: it
    tries to write every tag file and then every manifest, whatever fails,
    returns the errors of all the writes that failed, and leaves the bag as
    it was. *)
Theorem Save_without_tag_manifests {W} (h : handler W) (w : W)
    (tfs : list TagFile.t) (b : Bag.t) :
  let o := run h (Bag.Save tfs b) w in
  (∀ m, m ∈ Bag.Manifests b → Manifest.Type_ m = PayloadManifest) →
  calls o = tag_file_writes tfs ++ (Manifest_Create <$> Bag.Manifests b)
  ∧ (result o).2 = omap write_error (trace o)
  ∧ (result o).1 = b.
Proof.
  cbv zeta. intros Hall.
  destruct (Save_spec h tfs b w) as (Hcalls & Hkeep & _).
  destruct (Save_result_bag h tfs b w) as [ms Hbag].
  rewrite tag_files_calls_without_tag_manifests in Hcalls by done.
  assert (Bag.Manifests (result (run h (Bag.Save tfs b) w)).1 = Bag.Manifests b) as Hms.
  { clear -Hall Hkeep. revert Hall.
    induction Hkeep as [|m m' ms ms' Hm _ IH]; intros Hall; [done|]. f_equal.
    - eapply changed_by_payload; [done|]. rewrite (Hall m) by (by left). done.
    - apply IH. intros m0 Hm0. apply Hall. by right. }
  rewrite Hms in Hcalls.
  assert ((result (run h (Bag.Save tfs b) w)).1 = b) as Hb.
  { rewrite Hbag in Hms |- *. simpl in Hms. rewrite Hms. by destruct b. }
  destruct Hcalls as [[Hcalls _]|[(pre & e & rest & Htr & He & Hexp) _]].
  - split_and!; [done| |done].
    destruct (Save_errors h tfs b w) as [[_ Hres]|(msg & _ & pre & e & Htr & _ & He)];
      [done|].
    assert (is_FileChecksum (call_of e) = true) as Hc by (by destruct e as [[] []]).
    assert (call_of e ∈ tag_file_writes tfs ++ (Manifest_Create <$> Bag.Manifests b))
      as Hin.
    { rewrite <- Hcalls. unfold calls. rewrite Htr, fmap_app. apply elem_of_app.
      right. by left. }
    apply elem_of_app in Hin as [Hin|Hin].
    + apply tag_file_writes_not_checksum in Hin. congruence.
    + apply list_elem_of_fmap in Hin as (m & Hm & _). rewrite Hm in Hc. done.
  - apply failed_checksum_is_FileChecksum in He.
    assert (call_of e ∈ tag_file_writes tfs) as Hin.
    { rewrite Hexp, Htr, fmap_app. apply elem_of_app. left. apply elem_of_app.
      right. by left. }
    apply tag_file_writes_not_checksum in Hin. congruence.
Qed.

Lemma Save_without_tag_manifests_witness :
  (result (run (disk ["/tmp/bag1/bagit.txt"; "/tmp/bag1/manifest-md5.txt"])
             (Bag.Save [TagFile.mk "/tmp/bag1/bagit.txt" bagit_fields]
                (Bag.mk "/tmp/bag1" (Payload.mk "/tmp/bag1/data")
                   [reference_NewManifest "/tmp/bag1" "md5"]
                   {["bagit.txt" := TagFile.mk "/tmp/bag1/bagit.txt" bagit_fields]})) ∅)).2
  = ["open /tmp/bag1/bagit.txt: permission denied";
     "open /tmp/bag1/manifest-md5.txt: permission denied"].
Proof.
  destruct (Save_without_tag_manifests
              (disk ["/tmp/bag1/bagit.txt"; "/tmp/bag1/manifest-md5.txt"]) ∅
              [TagFile.mk "/tmp/bag1/bagit.txt" bagit_fields]
              (Bag.mk "/tmp/bag1" (Payload.mk "/tmp/bag1/data")
                 [reference_NewManifest "/tmp/bag1" "md5"]
                 {["bagit.txt" := TagFile.mk "/tmp/bag1/bagit.txt" bagit_fields]}))
    as (_ & -> & _).
  - intros m Hm. vm_compute in Hm. by apply list_elem_of_singleton in Hm as ->.
  - vm_compute. reflexivity.
Defined.

(** ** More on creating a bag *)

(** X11. Whenever [NewBag] returns an error it returns no bag, and the
    error is the one of the last call it made, a call of the setup: making
    a directory, creating a manifest, opening the payload or registering the
    empty [bagit.txt]. An error of the save at the end is never returned. *)
Theorem NewBag_returns_setup_errors_only {W} (h : handler W) (w : W)
    (location name : string) (hashNames : list string) (createTagManifests : bool)
    (err : error) :
  let o := run h (Bag.NewBag location name hashNames createTagManifests) w in
  (result o).2 = Some err →
  (result o).1 = None ∧ ends_in_setup_failure (trace o) err.
Proof.
  cbv zeta. intros Herr. split.
  - destruct (result (run h _ w)).1 as [b|] eqn:Hb; [|done].
    apply (NewBag_spec h) in Hb as (Hnone & _). congruence.
  - by apply NewBag_error_is_setup_failure.
Qed.

Lemma NewBag_returns_setup_errors_only_witness :
  (result (run (disk ["/tmp/bag1/bagit.txt"]) (Bag.NewBag "/tmp" "bag1" ["md5"] true) ∅)).1
  = None.
Proof.
  apply (NewBag_returns_setup_errors_only (disk ["/tmp/bag1/bagit.txt"]) ∅
           "/tmp" "bag1" ["md5"] true "open /tmp/bag1/bagit.txt: permission denied").
  vm_compute. reflexivity.
Defined.

Section NewBagManifests.
Context {W : Type} (h : handler W).

Lemma NewBag_manifests_requests bagPath hashNames createTagManifests ms w ms' :
  let o := run h (Bag.NewBag_manifests bagPath hashNames createTagManifests ms) w in
  result o = inl ms' →
  omap manifest_request (calls o)
  = concat (manifest_requests bagPath createTagManifests <$> hashNames)
  ∧ length ms' = length ms + length (omap manifest_request (calls o)).
Proof.
  revert ms w. induction hashNames as [|hashName hashNames IH]; intros ms w; cbv zeta.
  { simpl. intros [= <-]. split; [done|lia]. }
  cbn [Bag.NewBag_manifests]. unfold calls, manifest_requests in *. run_simpl.
  destruct (h (NewManifest _ _) w) as [[manifest|err1] w1]; run_simpl; [|done].
  destruct createTagManifests; run_simpl.
  - destruct (h (NewManifest _ _) w1) as [[tagmanifest|err2] w2]; run_simpl; [|done].
    intros Hres. destruct (IH _ _ Hres) as [Hreq Hlen]. rewrite !fmap_cons. cbn.
    rewrite Hreq. split; [done|]. rewrite Hlen, !length_app. simpl.
    rewrite Hreq. lia.
  - intros Hres. destruct (IH _ _ Hres) as [Hreq Hlen]. rewrite !fmap_cons. cbn.
    rewrite Hreq. split; [done|]. rewrite Hlen, !length_app. simpl.
    rewrite Hreq. lia.
Qed.

Lemma requests_cons e tr :
  manifest_request (call_of e) = None →
  omap manifest_request (call_of <$> e :: tr) = omap manifest_request (call_of <$> tr).
Proof. intros He. rewrite fmap_cons. simpl. by rewrite He. Qed.

Lemma Save_requests_no_manifest tfs b w :
  omap manifest_request (calls (run h (Bag.Save tfs b) w)) = [].
Proof.
  assert (∀ cs, (∀ c, c ∈ cs → manifest_request c = None) → omap manifest_request cs = [])
    as Hnil.
  { induction cs as [|c cs IH]; intros Hall; [done|]. simpl.
    rewrite (Hall c) by (by left). apply IH. intros c' Hc'. apply Hall. by right. }
  assert (∀ c, c ∈ tag_files_calls (Bag.Manifests b) tfs → manifest_request c = None)
    as Htag.
  { intros c. unfold tag_files_calls. induction tfs as [|tf tfs IH];
      [by intros ?%elem_of_nil|].
    rewrite fmap_cons. cbn [concat]. intros [Hc|Hc]%elem_of_app; [|by apply IH].
    unfold tag_file_calls in Hc. apply elem_of_app in Hc as [Hc|Hc].
    - apply elem_of_cons in Hc as [->|Hc]; [done|].
      by apply list_elem_of_singleton in Hc as ->.
    - by apply list_elem_of_fmap in Hc as (a & -> & _). }
  apply Hnil. intros c Hc.
  destruct (Save_spec h tfs b w) as ([[Hcalls _]|[(pre & e & rest & _ & _ & Hexp) _]] & _).
  - rewrite Hcalls in Hc. apply elem_of_app in Hc as [Hc|Hc]; [by apply Htag|].
    by apply list_elem_of_fmap in Hc as (m & -> & _).
  - apply Htag. rewrite Hexp. apply elem_of_app. by left.
Qed.

Lemma NewBag_requests location name hashNames createTagManifests w b :
  let o := run h (Bag.NewBag location name hashNames createTagManifests) w in
  let bagPath := filepath.Join location name in
  (result o).1 = Some b →
  omap manifest_request (calls o)
  = concat (manifest_requests bagPath createTagManifests <$> hashNames)
  ∧ length (Bag.Manifests b) = length (omap manifest_request (calls o))
  ∧ Bag.payload b = Payload.mk (filepath.Join bagPath "data").
Proof.
  cbv zeta. unfold Bag.NewBag, calls. run_simpl.
  destruct (h (os_Mkdir _) w) as [[err1|] w1]; run_simpl; [done|].
  rewrite run_bind.
  pose proof (NewBag_manifests_requests (filepath.Join location name) hashNames
                createTagManifests [] w1) as Hms. cbv zeta in Hms. unfold calls in Hms.
  destruct (run h (Bag.NewBag_manifests _ _ _ _) w1) as [[ms|err2] w2 tr2]; run_simpl;
    [|done].
  destruct (Hms ms eq_refl) as [Hreq Hlen]. clear Hms. cbn [trace] in Hreq, Hlen.
  destruct (h (os_Mkdir _) w2) as [[err3|] w3]; run_simpl; [done|].
  destruct (h (NewPayload _) w3) as [[err4|] w4]; run_simpl; [done|].
  rewrite run_bind. set (bag := Bag.mk _ _ ms ∅).
  pose proof (createBagItFile_spec h bag w4) as Hcreate. cbv zeta in Hcreate.
  assert (omap manifest_request (call_of <$> trace (run h (Bag.createBagItFile bag) w4)) = [])
    as Hnone.
  { unfold Bag.createBagItFile. rewrite run_bind.
    assert (omap manifest_request (call_of <$> trace (run h (Bag.AddTagfile "bagit.txt" bag) w4))
            = []) as Hadd.
    { unfold Bag.AddTagfile. run_simpl.
      destruct (h (os_MkdirAll _) w4) as [[?|] w5]; run_simpl; [done|].
      destruct (h (NewTagFile _) w5) as [[?|] w6]; run_simpl; [done|].
      by destruct (h (TagFile_Create _) w6) as [[?|] w7]; run_simpl. }
    destruct (run h (Bag.AddTagfile "bagit.txt" bag) w4) as [[b1 e] w5 tr5].
    run_simpl. cbn [trace] in Hadd. rewrite fmap_app, omap_app, Hadd.
    destruct e; run_simpl; [done|]. by destruct (Bag.TagFile "bagit.txt" b1). }
  destruct (run h (Bag.createBagItFile bag) w4) as [[bag1 [tf|err5]] w5 tr5];
    run_simpl; [|done].
  destruct (Hcreate tf eq_refl) as [Htf Hbag1]. clear Hcreate.
  simpl in Hbag1. cbn [trace] in Hnone. subst bag1. rewrite run_bind.
  match goal with
  | |- context [Bag.Save ?tfs ?bag2] =>
      pose proof (Save_requests_no_manifest tfs bag2 w5) as Hsave;
      destruct (Save_spec h tfs bag2 w5) as (_ & Hkeep & _);
      destruct (Save_result_bag h tfs bag2 w5) as [ms3 Hbag3];
      destruct (run h (Bag.Save tfs bag2) w5) as [[bag3 errors] w6 tr6]
  end.
  unfold calls in Hsave. cbn [trace] in Hsave. simpl in Hkeep, Hbag3. run_simpl.
  cbn [err_of].
  rewrite bool_decide_false by (by intros []). cbn [andb]. run_simpl.
  intros [= <-].
  match goal with
  | |- omap manifest_request ?cs = _ ∧ _ =>
      assert (omap manifest_request cs
              = concat (manifest_requests (filepath.Join location name) createTagManifests
                          <$> hashNames)) as Hall
  end.
  { rewrite requests_cons by done.
    rewrite fmap_app, omap_app, Hreq, !requests_cons by done.
    by rewrite !fmap_app, !omap_app, Hnone, Hsave, !app_nil_r. }
  rewrite Hall. split_and!; [done| |by rewrite Hbag3].
  rewrite <- (Forall2_length _ _ _ Hkeep). simpl. rewrite Hlen, Hreq. done.
Qed.

End NewBagManifests.

(** X12. For hash names of ASCII bytes, a bag that [NewBag] returns was
    built from these calls to [NewManifest], in this order: for every hash
    name, one for the bag directory and, when tag manifests are asked for,
    one for [tagmanifest-<name>.txt] in it, the name with its letters [A] to
    [Z] in lower case each time. The bag has one manifest for each of the
    calls, and its payload is the directory [data] under the bag. *)
Theorem NewBag_manifest_requests {W} (h : handler W) (w : W)
    (location name : string) (hashNames : list string) (createTagManifests : bool)
    (b : Bag.t) :
  let o := run h (Bag.NewBag location name hashNames createTagManifests) w in
  let bagPath := filepath.Join location name in
  Forall (λ hashName, ascii_text hashName = true) hashNames →
  (result o).1 = Some b →
  omap manifest_request (calls o)
  = concat (manifest_requests bagPath createTagManifests <$> hashNames)
  ∧ length (Bag.Manifests b) = length (omap manifest_request (calls o))
  ∧ Bag.payload b = Payload.mk (filepath.Join bagPath "data").
Proof. cbv zeta. intros _. apply NewBag_requests. Qed.

Lemma NewBag_manifest_requests_witness :
  omap manifest_request (calls (play all_ok (Bag.NewBag "/tmp" "bag1" ["MD5"; "Sha256"] true)))
  = [("/tmp/bag1", "md5"); ("/tmp/bag1/tagmanifest-md5.txt", "md5");
     ("/tmp/bag1", "sha256"); ("/tmp/bag1/tagmanifest-sha256.txt", "sha256")].
Proof.
  unfold play.
  destruct (NewBag_manifest_requests (scripted all_ok) tt "/tmp" "bag1" ["MD5"; "Sha256"]
              true
              (default two_tag_bag
                 (result (play all_ok (Bag.NewBag "/tmp" "bag1" ["MD5"; "Sha256"] true))).1))
    as (-> & _).
  - repeat constructor.
  - vm_compute. reflexivity.
  - vm_compute. reflexivity.
Defined.

(** ** The single-manifest revision: closing, confirming, orphans *)

Section SingleManifest.
Context {W : Type} (h : handler W).

Lemma Close_tagfiles_spec tfs errs w :
  let o := run h (SingleManifestBag.Close_tagfiles tfs errs) w in
  calls o = tag_file_writes tfs ∧ result o = errs ++ omap write_error (trace o).
Proof.
  revert errs w. induction tfs as [|tf tfs IH]; intros errs w; cbv zeta.
  { simpl. split; [done|by rewrite app_nil_r]. }
  cbn [SingleManifestBag.Close_tagfiles]. unfold calls, tag_file_writes in *. run_simpl.
  destruct (h (os_MkdirAll _) w) as [e1 w1]. run_simpl.
  destruct (h (TagFile_Create tf) w1) as [e2 w2]. run_simpl.
  destruct (IH ((errs ++ errs_of e1) ++ errs_of e2) w2) as [Hcalls ->].
  rewrite !fmap_cons, Hcalls. split; [done|].
  destruct e1, e2; simpl; by rewrite <- ?app_assoc, ?app_nil_r.
Qed.

Lemma ConfirmFiles_files_spec IsNotExist bagPath files errs w :
  let o := run h (SingleManifestBag.ConfirmFiles_files IsNotExist bagPath files errs) w in
  calls o = (λ f, os_Stat (filepath.Join bagPath f)) <$> files
  ∧ result o
    = errs ++ omap (λ fe, if stat_missing IsNotExist fe.2
                          then Some ("Unable to find: " +:+ fe.1) else None)
                (zip files (trace o)).
Proof.
  revert errs w. induction files as [|f files IH]; intros errs w; cbv zeta.
  { simpl. split; [done|by rewrite app_nil_r]. }
  cbn [SingleManifestBag.ConfirmFiles_files]. unfold calls in *. run_simpl.
  destruct (h (os_Stat _) w) as [[fi|err] w1]; run_simpl.
  - destruct (IH errs w1) as [Hcalls ->]. by rewrite !fmap_cons, Hcalls.
  - destruct (IsNotExist err) eqn:Hmiss.
    + destruct (IH (errs ++ ["Unable to find: " +:+ f]) w1) as [Hcalls ->].
      rewrite !fmap_cons, Hcalls. split; [done|]. simpl. rewrite Hmiss.
      by rewrite <- app_assoc.
    + destruct (IH errs w1) as [Hcalls ->].
      rewrite !fmap_cons, Hcalls. split; [done|]. simpl. by rewrite Hmiss.
Qed.

End SingleManifest.

(** X13. [Close] never stops at a failure: it tries to write the manifest
    and then, for every tag file, its directory and the file, and returns
    the errors of all the writes that failed, in the order of the writes. *)
Theorem Close_attempts_everything {W} (h : handler W) (w : W)
    (tfs : list TagFile.t) (b : SingleManifestBag.t) :
  let o := run h (SingleManifestBag.Close tfs b) w in
  calls o = Manifest_Create (SingleManifestBag.Manifest b) :: tag_file_writes tfs
  ∧ result o = omap write_error (trace o).
Proof.
  cbv zeta. unfold SingleManifestBag.Close, calls. run_simpl.
  destruct (h (Manifest_Create _) w) as [e w1]. run_simpl.
  destruct (Close_tagfiles_spec h tfs ([] ++ errs_of e) w1) as [Hcalls ->].
  unfold calls in Hcalls. rewrite fmap_cons, Hcalls. split; [done|]. by destruct e.
Qed.

(** X14. [ConfirmFiles] asks [os.Stat] once for every tracked file, in
    the order of [TrackedFiles], and reports [Unable to find] for exactly
    the files for which the error of [os.Stat] is one that [os.IsNotExist]
    accepts; any other error of [os.Stat] goes unreported. *)
Theorem ConfirmFiles_reports_missing {W} (h : handler W) (w : W)
    (IsNotExist : error → bool) (names : list string) (b : SingleManifestBag.t) :
  let o := run h (SingleManifestBag.ConfirmFiles IsNotExist names b) w in
  let files := SingleManifestBag.TrackedFiles names b in
  calls o = (λ f, os_Stat (filepath.Join (SingleManifestBag.Path b) f)) <$> files
  ∧ result o
    = omap (λ fe, if stat_missing IsNotExist fe.2
                  then Some ("Unable to find: " +:+ fe.1) else None)
        (zip files (trace o)).
Proof.
  cbv zeta. unfold SingleManifestBag.ConfirmFiles.
  destruct (ConfirmFiles_files_spec h IsNotExist (SingleManifestBag.Path b)
              (SingleManifestBag.TrackedFiles names b) [] w) as [Hcalls Hres].
  by rewrite Hcalls, Hres.
Qed.

(** X15. When the path of the manifest can be made relative to the bag,
    [ConfirmFiles] asks for the tag files only: the manifest is never
    looked for, so a bag without its manifest file is confirmed. *)
Theorem ConfirmFiles_skips_manifest {W} (h : handler W) (w : W)
    (IsNotExist : error → bool) (names : list string) (b : SingleManifestBag.t)
    (mPath : string) :
  filepath.Rel (SingleManifestBag.Path b) (Manifest.Name (SingleManifestBag.Manifest b))
  = inl mPath →
  calls (run h (SingleManifestBag.ConfirmFiles IsNotExist names b) w)
  = (λ f, os_Stat (filepath.Join (SingleManifestBag.Path b) f)) <$> names.
Proof.
  intros Hrel. unfold SingleManifestBag.ConfirmFiles.
  destruct (ConfirmFiles_files_spec h IsNotExist (SingleManifestBag.Path b)
              (SingleManifestBag.TrackedFiles names b) [] w) as [-> _].
  by rewrite (TrackedFiles_without_manifest names b mPath).
Qed.

Lemma ConfirmFiles_skips_manifest_witness :
  missing_manifest (os_Stat "/bags/b/manifest-md5.txt")
  = inr "stat /bags/b/manifest-md5.txt: no such file or directory"
  ∧ calls (play missing_manifest
             (SingleManifestBag.ConfirmFiles no_such_file ["bagit.txt"] single_bag))
    = [os_Stat "/bags/b/bagit.txt"]
  ∧ result (play missing_manifest
              (SingleManifestBag.ConfirmFiles no_such_file ["bagit.txt"] single_bag))
    = [].
Proof.
  split_and!; [vm_compute; reflexivity| |vm_compute; reflexivity].
  unfold play.
  rewrite (ConfirmFiles_skips_manifest (scripted missing_manifest) tt no_such_file
             ["bagit.txt"] single_bag "manifest-md5.txt") by (vm_compute; reflexivity).
  vm_compute. reflexivity.
Defined.

Lemma tracked_map_lookup (tracked : list string) (fMap : gmap string bool) (f : string) :
  foldl (λ fMap fn, <[fn := true]> fMap) fMap tracked !! f = None
  ↔ fMap !! f = None ∧ f ∉ tracked.
Proof.
  revert fMap. induction tracked as [|fn tracked IH]; intros fMap; simpl.
  - split; [intros ?; split; [done|by intros ?%elem_of_nil]|by intros []].
  - rewrite IH, not_elem_of_cons. destruct (decide (fn = f)) as [->|Hne].
    + rewrite lookup_insert_eq. split; [by intros [? ?]|by intros (? & ? & ?)].
    + rewrite lookup_insert_ne by done.
      split; [intros [? ?]; split_and!; [done|congruence|done]|by intros (? & ? & ?)].
Qed.

Lemma Orphans_filter {W} (h : handler W) (w : W)
    (names : list string) (b : SingleManifestBag.t) :
  result (run h (SingleManifestBag.Orphans names b) w)
  = filter (λ f, f ∉ SingleManifestBag.TrackedFiles names b)
      (result (run h (SingleManifestBag.ListFiles b) w)).1.
Proof.
  unfold SingleManifestBag.Orphans. rewrite run_bind.
  destruct (run h (SingleManifestBag.ListFiles b) w) as [[files e] w1 tr1]. run_simpl.
  apply list_filter_iff. intros f. rewrite tracked_map_lookup, lookup_empty.
  split; [by intros [_ ?]|done].
Qed.

(** X16. The orphans are the files of [ListFiles] that [TrackedFiles]
    does not have, in the order of [ListFiles]; the walk is the only call
    [Orphans] makes. *)
Theorem Orphans_are_untracked_files {W} (h : handler W) (w : W)
    (names : list string) (b : SingleManifestBag.t) :
  let o := run h (SingleManifestBag.Orphans names b) w in
  result o
  = filter (λ f, f ∉ SingleManifestBag.TrackedFiles names b)
      (result (run h (SingleManifestBag.ListFiles b) w)).1
  ∧ calls o = [filepath_Walk (SingleManifestBag.Path b)].
Proof.
  cbv zeta. split; [apply Orphans_filter|].
  unfold SingleManifestBag.Orphans, SingleManifestBag.ListFiles. run_simpl.
  destruct (h (filepath_Walk _) w) as [entries w1]. run_simpl.
  by destruct (SingleManifestBag.walk b entries []) as [files [err|]].
Qed.

(** X17. When the path of the manifest can be made relative to the bag
    and is not the name of a tag file, the manifest file is an orphan as
    soon as [ListFiles] finds it. *)
Theorem Orphans_reports_manifest {W} (h : handler W) (w : W)
    (names : list string) (b : SingleManifestBag.t) (mPath : string) :
  filepath.Rel (SingleManifestBag.Path b) (Manifest.Name (SingleManifestBag.Manifest b))
  = inl mPath →
  mPath ∉ names →
  mPath ∈ (result (run h (SingleManifestBag.ListFiles b) w)).1 →
  mPath ∈ result (run h (SingleManifestBag.Orphans names b) w).
Proof.
  intros Hrel Hnames Hfiles. rewrite Orphans_filter.
  apply list_elem_of_filter. split; [|done].
  by rewrite (TrackedFiles_without_manifest names b mPath).
Qed.

Lemma Orphans_reports_manifest_witness :
  "manifest-md5.txt"
  ∈ result (play (walking payload_walk) (SingleManifestBag.Orphans ["bagit.txt"] single_bag)).
Proof.
  apply (Orphans_reports_manifest (scripted (walking payload_walk)) tt ["bagit.txt"]
           single_bag "manifest-md5.txt").
  - vm_compute. reflexivity.
  - intros Hin. by apply list_elem_of_singleton in Hin.
  - vm_compute. do 3 right. left.
Defined.

(** ** More on listing and opening *)

Lemma visit_spec b files entry :
  let r := Bag.visit b files entry in
  (r.1 = files ∨ ∃ f, r.1 = files ++ [f] ∧ listed b entry f)
  ∧ (r.2 = None → ∀ f, listed b entry f → r.1 = files ++ [f]).
Proof.
  cbv zeta. unfold Bag.visit, listed.
  destruct (wErr entry) as [err|]; [split; [by left|by intros _ f []]|].
  destruct (negb (wIsDir entry) || negb (strings.HasPrefix _ _)) eqn:Hcond.
  - destruct (filepath.Rel _ _) as [fp|err]; [|split; [by left|done]].
    simpl. case_bool_decide as Hfp.
    + split.
      * right. exists fp. split; [done|]. split_and!; [done| |done..].
        apply orb_prop in Hcond as [Hc|Hc]; apply negb_true_iff in Hc; auto.
      * intros _ f (_ & _ & [= <-] & _). done.
    + split; [by left|]. intros _ f (_ & _ & [= <-] & Hne). by destruct Hfp.
  - split; [by left|]. intros _ f (_ & Hor & _).
    apply orb_false_elim in Hcond as [Hd%negb_false_iff Hp%negb_false_iff].
    destruct Hor; congruence.
Qed.

Lemma walk_spec b entries files :
  let r := Bag.walk b entries files in
  (∀ f, f ∈ r.1 → f ∈ files ∨ ∃ entry, entry ∈ entries ∧ listed b entry f)
  ∧ (r.2 = None → (∀ f, f ∈ files → f ∈ r.1)
                  ∧ ∀ entry f, entry ∈ entries → listed b entry f → f ∈ r.1).
Proof.
  revert files. induction entries as [|entry entries IH]; intros files; cbv zeta.
  { simpl. split; [by left|]. intros _. split; [done|]. by intros entry f ?%elem_of_nil. }
  cbn [Bag.walk]. destruct (visit_spec b files entry) as [Hsound Hcomplete].
  destruct (Bag.visit b files entry) as [files1 [err|]]; simpl in *.
  - split; [|done]. intros f Hf. destruct Hsound as [->|(f1 & -> & Hl)]; [by left|].
    apply elem_of_app in Hf as [Hf|Hf%list_elem_of_singleton]; [by left|].
    subst f1. right. exists entry. split; [by left|done].
  - destruct (IH files1) as [IHs IHc]. split.
    + intros f Hf. destruct (IHs f Hf) as [Hf1|(entry1 & Hin & Hl)].
      * destruct Hsound as [->|(f1 & -> & Hl)]; [by left|].
        apply elem_of_app in Hf1 as [Hf1|Hf1%list_elem_of_singleton]; [by left|].
        subst f1. right. exists entry. split; [by left|done].
      * right. exists entry1. split; [by right|done].
    + intros Hnone. destruct (IHc Hnone) as [Hkeep Hall]. split.
      * intros f Hf. apply Hkeep.
        destruct Hsound as [->|(f1 & -> & _)]; [done|]. apply elem_of_app. by left.
      * intros entry1 f [->|Hin]%elem_of_cons Hl; [|by eapply Hall].
        apply Hkeep. rewrite (Hcomplete eq_refl f Hl). apply elem_of_app. right. by left.
Qed.

Lemma ListFiles_error_empty {W} (h : handler W) (w : W) (b : Bag.t) :
  (result (run h (Bag.ListFiles b) w)).2 ≠ None →
  (result (run h (Bag.ListFiles b) w)).1 = [].
Proof.
  unfold Bag.ListFiles. run_simpl.
  destruct (h (filepath_Walk _) w) as [entries w1]. run_simpl.
  by destruct (Bag.walk b entries []) as [files [err|]].
Qed.

(** X18. [ListFiles] returns relative paths of entries of the walk and
    nothing else: every path it returns is the path, relative to the bag
    and other than the bag itself, of an entry that was read and that is a
    file or does not start with the path of the payload. When it returns no
    error it returns the path of every such entry; when it returns an error
    it returns no path at all. *)
Theorem ListFiles_lists {W} (h : handler W) (w : W) (b : Bag.t) :
  let o := run h (Bag.ListFiles b) w in
  let entries := answer h (filepath_Walk (Bag.Path b)) w in
  (∀ f, f ∈ (result o).1 → ∃ entry, entry ∈ entries ∧ listed b entry f)
  ∧ ((result o).2 = None →
     ∀ entry f, entry ∈ entries → listed b entry f → f ∈ (result o).1)
  ∧ ((result o).2 ≠ None → (result o).1 = []).
Proof.
  cbv zeta. unfold Bag.ListFiles, answer. run_simpl.
  destruct (h (filepath_Walk _) w) as [entries w1]. run_simpl.
  destruct (walk_spec b entries []) as [Hsound Hcomplete].
  destruct (Bag.walk b entries []) as [files [err|]]; run_simpl; simpl in *.
  - split_and!; [by intros f ?%elem_of_nil|done..].
  - split_and!; [|by apply Hcomplete|done].
    intros f Hf. destruct (Hsound f Hf) as [?%elem_of_nil|]; done.
Qed.

Section Opening.
Context {W : Type} (h : handler W).

Lemma findManifests_bag b w :
  ∃ ms, (result (run h (Bag.findManifests b) w)).1 = Bag.with_Manifests ms b.
Proof.
  unfold Bag.findManifests. case_bool_decide.
  - rewrite run_bind. destruct (run h (Bag.ListFiles b) w) as [[bagFiles e] w1 tr1].
    run_simpl. rewrite run_bind.
    destruct (run h (Bag.findManifests_files _ _ _) w1) as [[ms errors] w2 tr2].
    run_simpl. by exists ms.
  - exists (Bag.Manifests b). simpl. by destruct b.
Qed.

Lemma findManifests_files_quiet b bagFiles ms w :
  Forall (λ e, is_ReadTagFile (call_of e) = false)
    (trace (run h (Bag.findManifests_files b bagFiles ms) w)).
Proof.
  revert ms w. induction bagFiles as [|fName bagFiles IH]; intros ms w; [constructor|].
  cbn [Bag.findManifests_files]. destruct (_ || _); [|apply IH]. run_simpl.
  destruct (h (ReadManifest _) w) as [[manifest errors] w1]. run_simpl.
  constructor; [done|]. case_bool_decide; run_simpl; [constructor|apply IH].
Qed.

Lemma findManifests_quiet b w :
  Forall (λ e, is_ReadTagFile (call_of e) = false) (trace (run h (Bag.findManifests b) w)).
Proof.
  unfold Bag.findManifests. case_bool_decide; [|constructor].
  rewrite run_bind. unfold Bag.ListFiles. run_simpl.
  destruct (h (filepath_Walk _) w) as [entries w1]. run_simpl.
  destruct (Bag.walk b entries []) as [files [err|]]; run_simpl; cbn [app];
    (constructor; [done|]); rewrite run_bind; run_simpl;
    (apply Forall_app; split; [apply findManifests_files_quiet|]);
    destruct (result (run h (Bag.findManifests_files _ _ _) w1)); constructor.
Qed.

Lemma ReadBag_manifests_quiet bagPath indexes ms w :
  let o := run h (Bag.ReadBag_manifests bagPath indexes ms) w in
  Forall (λ e, is_ReadTagFile (call_of e) = false) (trace o)
  ∧ length (result o).1 = length ms.
Proof.
  revert ms w. induction indexes as [|i indexes IH]; intros ms w; cbv zeta;
    [split; [constructor|done]|].
  cbn [Bag.ReadBag_manifests]. destruct (ms !! i) as [manifest|]; [|apply IH].
  set (manifestPath := if bool_decide _ then _ else _). run_simpl.
  destruct (h (os_Stat manifestPath) w) as [[fi|err] w1]; run_simpl;
    [|split; [by repeat constructor|done]].
  destruct (h (ReadManifest manifestPath) w1) as [[parsedManifest errs] w2]. run_simpl.
  case_bool_decide; run_simpl; [split; [by repeat constructor|done]|].
  destruct (IH (<[i := parsedManifest]> ms) w2) as [Hquiet Hlen].
  split; [by repeat constructor|]. by rewrite Hlen, length_insert.
Qed.

Lemma ReadBag_tagfiles_spec bagPath names tfs w :
  let o := run h (Bag.ReadBag_tagfiles bagPath names tfs) w in
  ∀ k tf, result o !! k = Some tf →
    tfs !! k = Some tf
    ∨ (k ∈ names ∧ ∃ e, e ∈ trace o ∧ tag_file_read e = Some (filepath.Join bagPath k, tf)).
Proof.
  revert tfs w. induction names as [|tName names IH]; intros tfs w; cbv zeta;
    [by left|].
  cbn [Bag.ReadBag_tagfiles]. run_simpl.
  destruct (h (ReadTagFile _) w) as [[tf0 errs] w1] eqn:Hread. run_simpl.
  rewrite run_bind.
  set (warn := if bool_decide (length errs ≠ 0) then _ else _).
  destruct (run h warn w1) as [[] w2 tr2]. run_simpl.
  intros k tf Hk.
  assert (∀ tfs1,
            result (run h (Bag.ReadBag_tagfiles bagPath names tfs1) w2) !! k = Some tf →
            tfs1 !! k = Some tf
            ∨ (k ∈ tName :: names
               ∧ ∃ e, e ∈ Ev (ReadTagFile (filepath.Join bagPath tName)) (tf0, errs)
                          :: tr2 ++ trace (run h (Bag.ReadBag_tagfiles bagPath names tfs1) w2)
                      ∧ tag_file_read e = Some (filepath.Join bagPath k, tf))) as Hrest.
  { intros tfs1 Hk1. destruct (IH tfs1 w2 k tf Hk1) as [?|(Hin & e & He & Hread1)];
      [by left|].
    right. split; [by right|]. exists e. split; [|done].
    right. apply elem_of_app. by right. }
  destruct tf0 as [tf0|].
  - destruct (Hrest _ Hk) as [Hins|?]; [|by right].
    destruct (decide (tName = k)) as [->|Hne].
    + rewrite lookup_insert_eq in Hins. injection Hins as ->.
      right. split; [by left|]. eexists. split; [by left|done].
    + rewrite lookup_insert_ne in Hins by done. by left.
  - by apply Hrest.
Qed.

Lemma ReadBag_opened pathToFile tagfiles w b :
  let o := run h (Bag.ReadBag pathToFile tagfiles) w in
  (result o).1 = Some b →
  (result o).2 = None
  ∧ Bag.pathToFile b = pathToFile
  ∧ Bag.payload b = Payload.mk (filepath.Join pathToFile "data")
  ∧ Bag.Manifests b ≠ []
  ∧ ∀ k tf, Bag.tagfiles b !! k = Some tf →
      k ∈ tagfiles
      ∧ ∃ e, e ∈ trace o ∧ tag_file_read e = Some (filepath.Join pathToFile k, tf).
Proof.
  cbv zeta. unfold Bag.ReadBag. run_simpl.
  destruct (h (os_Stat pathToFile) w) as [[fi|err] w1]; run_simpl; [|done].
  destruct (negb (IsDir fi)); run_simpl; [done|].
  destruct (h (NewPayload _) w1) as [[err|] w2]; run_simpl; [done|].
  rewrite run_bind. set (bag := Bag.mk _ _ _ _).
  destruct (findManifests_bag bag w2) as [ms1 Hbag1].
  destruct (run h (Bag.findManifests bag) w2) as [[bag1 [errors|]] w3 tr3]; run_simpl;
    [done|].
  simpl in Hbag1. subst bag1. cbn [Bag.Manifests Bag.with_Manifests Bag.pathToFile
                                    Bag.tagfiles].
  case_bool_decide as Hlen; run_simpl; [done|]. rewrite run_bind.
  destruct (ReadBag_manifests_quiet pathToFile (seq 0 (length ms1)) ms1 w3) as [_ Hlen2].
  destruct (run h (Bag.ReadBag_manifests _ _ _) w3) as [[ms2 [err|]] w4 tr4]; run_simpl;
    [done|].
  rewrite run_bind. cbn [Bag.Manifests Bag.with_Manifests Bag.pathToFile Bag.tagfiles].
  pose proof (ReadBag_tagfiles_spec pathToFile tagfiles ∅ w4) as Htfs. cbv zeta in Htfs.
  destruct (run h (Bag.ReadBag_tagfiles _ _ _) w4) as [tfs w5 tr5]. run_simpl.
  intros [= <-]. simpl in *. split_and!; [done..| |].
  - intros Hnil. apply Hlen. by rewrite <- Hlen2, Hnil.
  - intros k tf Hk. destruct (Htfs k tf Hk) as [?|(Hin & e & He & Hread)]; [done|].
    split; [done|]. exists e. split; [|done].
    do 2 right. apply elem_of_app. right. apply elem_of_app. right.
    rewrite app_nil_r. done.
Qed.

Lemma ReadBag_fatal_before_tag_files pathToFile tagfiles w :
  let o := run h (Bag.ReadBag pathToFile tagfiles) w in
  (result o).2 = None
  ∨ Forall (λ e, is_ReadTagFile (call_of e) = false) (trace o).
Proof.
  cbv zeta. unfold Bag.ReadBag. run_simpl.
  destruct (h (os_Stat pathToFile) w) as [[fi|err] w1]; run_simpl;
    [|right; by repeat constructor].
  destruct (negb (IsDir fi)); run_simpl; [right; by repeat constructor|].
  destruct (h (NewPayload _) w1) as [[err|] w2]; run_simpl;
    [right; by repeat constructor|].
  rewrite run_bind. set (bag := Bag.mk _ _ _ _).
  pose proof (findManifests_quiet bag w2) as Hq3.
  destruct (run h (Bag.findManifests bag) w2) as [[bag1 [errors|]] w3 tr3]; run_simpl.
  { right. do 2 (constructor; [done|]). rewrite app_nil_r. done. }
  case_bool_decide; run_simpl.
  { right. do 2 (constructor; [done|]). rewrite app_nil_r. done. }
  rewrite run_bind.
  match goal with
  | |- context [run h (Bag.ReadBag_manifests ?bagPath ?indexes ?ms0) w3] =>
      destruct (ReadBag_manifests_quiet bagPath indexes ms0 w3) as [Hq4 _];
      destruct (run h (Bag.ReadBag_manifests bagPath indexes ms0) w3)
        as [[ms [err|]] w4 tr4]
  end; run_simpl.
  - right. do 2 (constructor; [done|]). apply Forall_app. split; [done|].
    rewrite app_nil_r. done.
  - left. rewrite run_bind. by run_simpl.
Qed.

End Opening.

(** X19. A bag that [ReadBag] returns comes without error; it has the
    path given and the directory [data] under it as payload, at least one
    manifest, and no tag files but ones named in the argument, each of them
    the tag file that [ReadTagFile] returned for the name under the bag. *)
Theorem ReadBag_opened_bag {W} (h : handler W) (w : W)
    (pathToFile : string) (tagfiles : list string) (b : Bag.t) :
  let o := run h (Bag.ReadBag pathToFile tagfiles) w in
  (result o).1 = Some b →
  (result o).2 = None
  ∧ Bag.pathToFile b = pathToFile
  ∧ Bag.payload b = Payload.mk (filepath.Join pathToFile "data")
  ∧ Bag.Manifests b ≠ []
  ∧ ∀ k tf, Bag.tagfiles b !! k = Some tf →
      k ∈ tagfiles
      ∧ ∃ e, e ∈ trace o ∧ tag_file_read e = Some (filepath.Join pathToFile k, tf).
Proof. apply ReadBag_opened. Qed.

Lemma ReadBag_opened_bag_witness :
  ∃ b, (result (play tagmanifest_only (Bag.ReadBag "/bags/b" ["bagit.txt"]))).1 = Some b
       ∧ Bag.Manifests b ≠ [].
Proof.
  eexists. split; [vm_compute; reflexivity|].
  eapply (ReadBag_opened_bag (scripted tagmanifest_only) tt "/bags/b" ["bagit.txt"]).
  vm_compute. reflexivity.
Defined.

(** X20. What [ReadTagFile] reports never makes [ReadBag] fail: once
    [ReadBag] has called [ReadTagFile], it returns a bag and no error. *)
Theorem ReadBag_tag_file_errors_not_fatal {W} (h : handler W) (w : W)
    (pathToFile : string) (tagfiles : list string) (e : event) :
  let o := run h (Bag.ReadBag pathToFile tagfiles) w in
  e ∈ trace o → is_ReadTagFile (call_of e) = true →
  (result o).2 = None.
Proof.
  cbv zeta. intros Hin He.
  destruct (ReadBag_fatal_before_tag_files h pathToFile tagfiles w) as [?|Hquiet]; [done|].
  rewrite Forall_forall in Hquiet. rewrite (Hquiet e Hin) in He. done.
Qed.

Lemma ReadBag_tag_file_errors_not_fatal_witness :
  (tagmanifest_only (ReadTagFile "/bags/b/bagit.txt")).2 = ["not a tag file"]
  ∧ (result (play tagmanifest_only (Bag.ReadBag "/bags/b" ["bagit.txt"]))).2 = None.
Proof.
  split; [reflexivity|].
  apply (ReadBag_tag_file_errors_not_fatal (scripted tagmanifest_only) tt "/bags/b"
           ["bagit.txt"]
           (Ev (ReadTagFile "/bags/b/bagit.txt") (None, ["not a tag file"]))).
  - vm_compute. do 6 right. left.
  - reflexivity.
Defined.

(** X21. [ReadBag] does not report the error of a walk that fails: with
    the root a directory and the payload there, it fails with
    [Unable to parse a manifest], as for a directory without manifests. *)
Theorem ReadBag_hides_walk_error {W} (h : handler W) (w : W)
    (pathToFile : string) (tagfiles : list string) (fi : FileInfo) :
  let plPath := filepath.Join pathToFile "data" in
  let w1 := after h (os_Stat pathToFile) w in
  let w2 := after h (NewPayload plPath) w1 in
  let bag := Bag.mk pathToFile (Payload.mk plPath) [] ∅ in
  answer h (os_Stat pathToFile) w = inl fi →
  IsDir fi = true →
  answer h (NewPayload plPath) w1 = None →
  (result (run h (Bag.ListFiles bag) w2)).2 ≠ None →
  result (run h (Bag.ReadBag pathToFile tagfiles) w)
  = (None, Some "Unable to parse a manifest").
Proof.
  cbv zeta. unfold answer, after, Bag.ReadBag. run_simpl.
  destruct (h (os_Stat pathToFile) w) as [st w1]. cbn [fst snd].
  intros -> Hdir. rewrite Hdir. cbn [negb]. run_simpl.
  destruct (h (NewPayload _) w1) as [e w2]. cbn [fst snd]. intros -> Hwalk.
  run_simpl. rewrite run_bind. unfold Bag.findManifests. cbn [Bag.Manifests length].
  rewrite bool_decide_true by done. rewrite run_bind.
  pose proof (ListFiles_error_empty h w2 (Bag.mk pathToFile
                (Payload.mk (filepath.Join pathToFile "data")) [] ∅) Hwalk) as Hnil.
  destruct (run h (Bag.ListFiles _) w2) as [[bagFiles e] w3 tr3]. simpl in Hnil.
  subst bagFiles. run_simpl.
  rewrite run_bind, findManifests_files_none by (by intros f ?%elem_of_nil). run_simpl.
  cbn [Bag.Manifests Bag.with_Manifests length]. by rewrite bool_decide_true by done.
Qed.

Lemma ReadBag_hides_walk_error_witness :
  result (play (walking unreadable_walk) (Bag.ReadBag "/bags/b" []))
  = (None, Some "Unable to parse a manifest").
Proof.
  apply (ReadBag_hides_walk_error (scripted (walking unreadable_walk)) tt "/bags/b" []
           {| IsDir := true |}).
  - reflexivity.
  - reflexivity.
  - reflexivity.
  - vm_compute. discriminate.
Defined.

(** ** The single-manifest revision: adding payload files *)

(** X22. When the payload has taken the file, [AddFile] returns no error
    and records the digest under [data/<dst>], relative to the bag, over
    whatever was recorded there; other entries and the rest of the bag are as
    they were. When the payload reports an error, [AddFile] returns it and
    the bag is as it was. *)
Theorem AddFile_records (added : string + error) (dst : string)
    (b : SingleManifestBag.t) :
  let b' := (SingleManifestBag.AddFile added dst b).1 in
  let key := filepath.Join "data" dst in
  match added with
  | inl fx =>
      (SingleManifestBag.AddFile added dst b).2 = None
      ∧ Manifest.Data (SingleManifestBag.Manifest b') !! key = Some fx
      ∧ (∀ other, other ≠ key →
           Manifest.Data (SingleManifestBag.Manifest b') !! other
           = Manifest.Data (SingleManifestBag.Manifest b) !! other)
      ∧ header (SingleManifestBag.Manifest b') = header (SingleManifestBag.Manifest b)
      ∧ SingleManifestBag.tagfiles b' = SingleManifestBag.tagfiles b
      ∧ SingleManifestBag.pth b' = SingleManifestBag.pth b
  | inr err => SingleManifestBag.AddFile added dst b = (b, Some err)
  end.
Proof.
  cbv zeta. destruct added as [fx|err]; [|done]. simpl. split_and!; [done| |
    intros other Hne|done..].
  - apply lookup_insert_eq.
  - by apply lookup_insert_ne.
Qed.

Lemma AddDir_fold data m key :
  key ∉ (λ kv : string * string, filepath.Join "data" kv.1) <$> data →
  Manifest.Data
    (foldl (λ m kv, Manifest.setData (filepath.Join "data" kv.1) kv.2 m) m data) !! key
  = Manifest.Data m !! key.
Proof.
  revert m. induction data as [|[k v] data IH]; intros m Hkey; [done|].
  rewrite fmap_cons in Hkey. apply not_elem_of_cons in Hkey as [Hne Hkey].
  simpl. rewrite IH by done. simpl. by rewrite lookup_insert_ne.
Qed.

(** X23. [AddDir] returns the errors of the payload as they are and, when
    no two of the files added come to the same path under [data], records
    for every file its digest under [data/<file>]; entries under other keys
    and the rest of the bag are as they were. What [AddDir] does to the
    manifest is what [AddFile] does, file by file. *)
Theorem AddDir_records (data : list (string * string)) (errs : list error)
    (b : SingleManifestBag.t) :
  let b' := (SingleManifestBag.AddDir data errs b).1 in
  let keys := (λ kv : string * string, filepath.Join "data" kv.1) <$> data in
  NoDup keys →
  (SingleManifestBag.AddDir data errs b).2 = errs
  ∧ (∀ k v, (k, v) ∈ data →
       Manifest.Data (SingleManifestBag.Manifest b') !! filepath.Join "data" k = Some v)
  ∧ (∀ key, key ∉ keys →
       Manifest.Data (SingleManifestBag.Manifest b') !! key
       = Manifest.Data (SingleManifestBag.Manifest b) !! key)
  ∧ b' = foldl (λ b kv, (SingleManifestBag.AddFile (inl kv.2) kv.1 b).1) b data.
Proof.
  cbv zeta. intros Hnodup. split_and!; [done| | |].
  - simpl. generalize (SingleManifestBag.Manifest b). clear b.
    induction data as [|[k0 v0] data IH]; intros m k v Hin; [by apply elem_of_nil in Hin|].
    rewrite fmap_cons in Hnodup. apply NoDup_cons in Hnodup as [Hfresh Hnodup].
    apply elem_of_cons in Hin as [[= -> ->]|Hin].
    + simpl. rewrite AddDir_fold by done. apply lookup_insert_eq.
    + simpl. by apply IH.
  - intros key Hkey. simpl. by apply AddDir_fold.
  - unfold SingleManifestBag.AddDir. simpl. clear Hnodup. revert b.
    induction data as [|[k v] data IH]; intros b; [by destruct b|].
    simpl. rewrite <- IH. done.
Qed.

Lemma AddDir_records_witness :
  Manifest.Data
    (SingleManifestBag.Manifest
       (SingleManifestBag.AddDir
          [("sub/b.txt", "7d793037a0760186574b0282f2f435e7"); ("c.txt", "0cc175b9c0f1b6a831c399e269772661")]
          ["open /src/d.txt: permission denied"] single_bag).1)
  !! "data/sub/b.txt" = Some "7d793037a0760186574b0282f2f435e7".
Proof.
  destruct (AddDir_records
              [("sub/b.txt", "7d793037a0760186574b0282f2f435e7");
               ("c.txt", "0cc175b9c0f1b6a831c399e269772661")]
              ["open /src/d.txt: permission denied"] single_bag)
    as (_ & Hdata & _).
  - vm_compute. repeat constructor; intros Hin;
      repeat (apply elem_of_cons in Hin as [Hin|Hin]; [discriminate Hin|]);
      by apply elem_of_nil in Hin.
  - apply (Hdata "sub/b.txt"). by left.
Defined.
